(** * AFTC: quote ingestion, historical store, strategies and decision loop

    A shallow embedding of the Python sources

      - [core/database/historical_data.py]   (module [Historical])
      - [core/database/realtime_data.py]     (module [Realtime])
      - [strategies/single_currency/simple_strategy.py]      (module [Simple])
      - [strategies/multi_currency/correlation_strategy.py]  (module [Correlation])
      - [core/engine/trading_bot.py] and the loop of [main.py]
                                             (module [Bot])

    Conventions of the embedding.

      - A Python method that mutates [self] or may raise is a computation
        [M S A = S -> result A * S]: the state reached is returned also when
        an exception is raised, Python does not roll a mutation back.
      - Rates, thresholds and everything computed from them are binary64
        floats ([Num.num]): the values and the correctly rounded operations
        of [SpecFloat] at precision 53 and maximal exponent 1024.  A number
        that is only carried along (a trade amount) is a rational.
      - A date is its day ordinal, a [Z]; the text form [YYYY-MM-DD] and
        [pd.to_datetime] are inverse to each other on dates.
      - A pandas frame indexed by date is the list of its rows, in row order.
        What pandas computes inside [get_correlation] (the pairing of the
        rows of two frames, the coefficient of a window) is a parameter.
      - What the outside world answers (clock, HTTP API, disk faults) is
        gathered in a record ([World], [Tick]) the functions take as
        argument. *)

From Stdlib Require Import ZArith QArith Lia List String Ascii Sorted SpecFloat.
From stdpp Require Import base gmap strings list.

Local Open Scope string_scope.
Local Open Scope list_scope.
Local Open Scope Z_scope.

(** ** Exceptions and the state-and-exception monad *)

Inductive exn : Type :=
  | ZeroDivisionError
  | KeyError
  | ValueError
  | IndexError
  | OSError
  | OverflowError
  | OtherError.

Inductive result (A : Type) : Type :=
  | Ok (a : A)
  | Raise (e : exn).
Arguments Ok {A} a.
Arguments Raise {A} e.

Definition M (S A : Type) : Type := S -> result A * S.

#[export] Instance M_ret {S} : MRet (M S) := fun A a s => (Ok a, s).

#[export] Instance M_bind {S} : MBind (M S) := fun A B f m s =>
  match m s with
  | (Ok a, s') => f a s'
  | (Raise e, s') => (Raise e, s')
  end.

Definition raise {S A} (e : exn) : M S A := fun s => (Raise e, s).
Definition gets {S A} (f : S -> A) : M S A := fun s => (Ok (f s), s).
Definition modify {S} (f : S -> S) : M S unit := fun s => (Ok tt, f s).
Definition lift {S A} (r : result A) : M S A := fun s => (r, s).

(** [try: body except Exception: handler] *)
Definition try_except {S A} (body : M S A) (handler : exn -> M S A) : M S A :=
  fun s =>
    match body s with
    | (Ok a, s') => (Ok a, s')
    | (Raise e, s') => handler e s'
    end.

(** ** Floating-point values *)

Module Num.

(** Python's [float] and numpy's [float64]: IEEE 754 binary64, every
    operation rounded to nearest, ties to even.  The type also holds
    mantissas and exponents that are no float of the format; what is
    proved of every value of the type holds of the floats. *)
Definition num : Type := spec_float.

Definition prec : Z := 53.
Definition emax : Z := 1024.

Definition zero : num := S754_zero false.

(** [float(n)] of an integer. *)
Definition of_Z (n : Z) : num := binary_normalize prec emax n 0 false.

Definition opp : num -> num := SFopp.
Definition abs : num -> num := SFabs.
Definition sub : num -> num -> num := SFsub prec emax.
Definition mul : num -> num -> num := SFmul prec emax.

(** numpy's division: a zero divisor gives an infinity, or NaN for 0/0,
    and does not raise. *)
Definition div : num -> num -> num := SFdiv prec emax.

(** The float a decimal literal denotes, from the literal written as a
    fraction [n / d] with [n] and [d] below [2^53]: the float nearest to
    the quotient. *)
Definition of_Q (q : Q) : num := div (of_Z (Qnum q)) (of_Z (Zpos (Qden q))).

(** [x < y], [x <= y], [x > y], [x >= y], [x == y]; every comparison
    with NaN is false. *)
Definition ltb : num -> num -> bool := SFltb.
Definition leb : num -> num -> bool := SFleb.
Definition gtb (x y : num) : bool := SFltb y x.
Definition geb (x y : num) : bool := SFleb y x.
Definition eqb : num -> num -> bool := SFeqb.

(** [x == 0]: one of the two zeros. *)
Definition is_zero (x : num) : bool :=
  match x with
  | S754_zero _ => true
  | _ => false
  end.

(** Neither NaN nor an infinity. *)
Definition is_finite (x : num) : bool :=
  match x with
  | S754_zero _ | S754_finite _ _ _ => true
  | _ => false
  end.

(** [np.sign]: 1, -1, 0 for the two zeros, NaN for NaN. *)
Definition sign (x : num) : num :=
  match x with
  | S754_nan => S754_nan
  | S754_zero _ => zero
  | S754_infinity s | S754_finite s _ _ => if s then of_Z (-1) else of_Z 1
  end.

(** Python's division of floats raises on a zero divisor. *)
Definition py_div (x y : num) : result num :=
  if is_zero y then Raise ZeroDivisionError else Ok (div x y).

(** A value a running maximum of absolute values can hold. *)
Definition nonneg (x : num) : Prop := leb zero x = true.

(** A value that is neither NaN nor zero. *)
Definition nonzero (x : num) : Prop := x <> S754_nan /\ is_zero x = false.

End Num.

Export Num (num).

Abbreviation NaN := S754_nan.

Arguments Num.sub : simpl never.
Arguments Num.mul : simpl never.
Arguments Num.div : simpl never.
Arguments Num.of_Z : simpl never.
Arguments Num.of_Q : simpl never.

(** ** Rows, frames, quotes, decisions *)

(** One history record [{date, rate}]. *)
Definition PricePoint : Type := Z * num.

(** A frame with a date index and a [rate] column. *)
Definition DataFrame : Type := list PricePoint.

Definition index (df : DataFrame) : list Z := map fst df.
Definition rates (df : DataFrame) : list num := map snd df.

(** [df.empty] *)
Definition empty (df : DataFrame) : bool :=
  match df with
  | [] => true
  | _ :: _ => false
  end.

(** [df.index.max()] of a frame that is not empty. *)
Definition index_max (df : DataFrame) : Z :=
  match index df with
  | [] => 0
  | d :: ds => fold_left Z.max ds d
  end.

(** One entry of a snapshot: [{'rate': ..., 'timestamp': ...}]. *)
Record Quote : Type := mkQuote { rate : num; timestamp : string }.

(** The market data dictionary: currency pair to quote. *)
Abbreviation Snapshot := (gmap string Quote).

Inductive Action : Type := buy | sell.

(** What the [reason] text of a decision is formatted from. *)
Inductive Reason : Type :=
  | PriceDrop (pair : string) (abs_percent_change threshold : num)
  | PriceRise (pair : string) (percent_change threshold : num)
  | Divergence (primary : string) (max_pair : option string)
               (divergence threshold : num).

Record Trade : Type := mkTrade {
  action : Action;
  currency : string;
  amount : Q;
  price : num;
  reason : Reason
}.

(** [{'should_trade': False}] or a full trade dictionary. *)
Inductive Decision : Type :=
  | NoTrade
  | ShouldTrade (t : Trade).

Definition should_trade (d : Decision) : bool :=
  match d with
  | NoTrade => false
  | ShouldTrade _ => true
  end.

(** ** core/database/historical_data.py *)

Module Historical.

(** What the outside answers during one call. *)
Record World : Type := mkWorld {
  (** [datetime.now()], as a day ordinal *)
  today : Z;
  (** [APIConnector.get_historical_rates]: the rows returned (the empty
      list also when the request failed: the connector catches
      [RequestException]), or an exception of another kind *)
  get_historical_rates : string -> Z -> Z -> result (list PricePoint);
  (** whether opening the given file for writing fails *)
  write_fails : string -> bool
}.

(** [HistoricalDataManager]: the data directory and, behind it, the files
    of that directory.  [saved] lists the paths [_save_data] has written,
    oldest first. *)
Record HistoricalDataManager : Type := mkManager {
  data_dir : string;
  files : gmap string (list PricePoint);
  saved : list string
}.

(** [currency_pair.replace('/', '_')] *)
Fixpoint replace_slash (s : string) : string :=
  match s with
  | EmptyString => EmptyString
  | String c t =>
      String (if Ascii.eqb c "/" then "_"%char else c) (replace_slash t)
  end.

(** [os.path.join(self.data_dir, f"{...}.json")] *)
Definition file_path (dir currency_pair : string) : string :=
  dir +:+ "/" +:+ replace_slash currency_pair +:+ ".json".

(** [_load_local_data]: the rows of the file; the empty frame when there
    is no file, and also when building the frame raises (a file holding
    the empty array has no [date] column). *)
Definition _load_local_data (currency_pair : string)
    (m : HistoricalDataManager) : DataFrame :=
  match files m !! file_path (data_dir m) currency_pair with
  | None => []
  | Some rows => rows
  end.

(** [_need_update] *)
Definition _need_update (w : World) (local_data : DataFrame) : bool :=
  if empty local_data then true
  else index_max local_data <? today w - 1.

(** [_save_data] *)
Definition _save_data (w : World) (currency_pair : string)
    (data : DataFrame) : M HistoricalDataManager unit :=
  path ← gets (fun m => file_path (data_dir m) currency_pair);
  if write_fails w path then raise OSError
  else modify (fun m =>
         {| data_dir := data_dir m;
            files := <[path := data]> (files m);
            saved := saved m ++ [path] |}).

(** [index.duplicated(keep='last')] at the head row of [p :: rest] *)
Definition duplicated_later (p : PricePoint) (rest : DataFrame) : bool :=
  existsb (fun r => fst r =? fst p) rest.

(** [df[~df.index.duplicated(keep='last')]]: of the rows of one date only
    the last stays, at its own place. *)
Fixpoint drop_duplicated_keep_last (df : DataFrame) : DataFrame :=
  match df with
  | [] => []
  | p :: rest =>
      if duplicated_later p rest then drop_duplicated_keep_last rest
      else p :: drop_duplicated_keep_last rest
  end.

(** Lines 128-133: the frame that is saved. *)
Definition combine (local_data new_df : DataFrame) : DataFrame :=
  if negb (empty local_data) then
    drop_duplicated_keep_last (local_data ++ new_df)
  else new_df.

(** The date range asked from the API. *)
Definition fetch_range (w : World) (local_data : DataFrame) : Z * Z :=
  if empty local_data then (today w - 5 * 365, today w)
  else (index_max local_data + 1, today w).

(** [update_historical_data] *)
Definition update_historical_data (w : World) (currency_pair : string)
    : M HistoricalDataManager unit :=
  try_except
    (local_data ← gets (_load_local_data currency_pair);
     let '(start_date, end_date) := fetch_range w local_data in
     new_data ← lift (get_historical_rates w currency_pair start_date end_date);
     match new_data with
     | [] => mret tt
     | _ :: _ => _save_data w currency_pair (combine local_data new_data)
     end)
    (fun _ => mret tt).

(** [local_data[local_data.index >= start_date]], [None] leaves the frame. *)
Definition filter_from (start_date : option Z) (df : DataFrame) : DataFrame :=
  match start_date with
  | Some s => List.filter (fun p => s <=? fst p) df
  | None => df
  end.

Definition filter_to (end_date : option Z) (df : DataFrame) : DataFrame :=
  match end_date with
  | Some e => List.filter (fun p => fst p <=? e) df
  | None => df
  end.

(** [load_historical_data] *)
Definition load_historical_data (w : World) (currency_pair : string)
    (start_date end_date : option Z) : M HistoricalDataManager DataFrame :=
  local_data ← gets (_load_local_data currency_pair);
  local_data ←
    (if empty local_data || _need_update w local_data then
       update_historical_data w currency_pair ;;
       gets (_load_local_data currency_pair)
     else mret local_data);
  mret (filter_to end_date (filter_from start_date local_data)).

(** *** Rolling correlation *)

Section Correlation.

(** What pandas computes inside [get_correlation] is taken as two
    parameters.

    [align data1 data2] is the list of the rows that
    [data1["rate"].rolling(...).corr(data2["rate"])] pairs after
    [index.intersection] and [.loc]: the two rates of each row of the
    result, which pandas aligns on the date labels.

    [pearson window pairs] is the coefficient pandas gives at the last of
    the rows [pairs], which are at least [window]; NaN where it is
    undefined (a constant column, a missing value). *)
Variable align : DataFrame -> DataFrame -> list (num * num).
Variable pearson : nat -> list (num * num) -> num.

(** [rolling(window=window).corr(...)]: one value per paired row, NaN on
    the first [window - 1] rows, which have fewer than [min_periods =
    window] observations behind them. *)
Definition rolling_corr (window : nat) (pairs : list (num * num)) : list num :=
  map (fun i =>
         if (i + 1 <? window)%nat then NaN
         else pearson window (firstn (i + 1) pairs))
      (seq 0 (length pairs)).

(** [get_correlation] *)
Definition get_correlation (w : World) (currency_pair1 currency_pair2 : string)
    (window : nat) (start_date end_date : option Z)
    : M HistoricalDataManager (list num) :=
  data1 ← load_historical_data w currency_pair1 start_date end_date;
  data2 ← load_historical_data w currency_pair2 start_date end_date;
  mret (rolling_corr window (align data1 data2)).

End Correlation.

End Historical.

(** ** [time.sleep] *)

(** The longest pause every platform accepts: above it the answer depends
    on the platform's timer (48 days on one, 292 years on another). *)
Definition sleep_safe : Z := 4194304.

(** What [time.sleep(seconds)] raises, if anything: [ValueError] for a
    negative argument; for an argument above [sleep_safe] what the
    platform answers ([OverflowError], [OSError], or nothing). *)
Definition sleep_error (timer_refuses : Z -> option exn) (seconds : Z)
    : option exn :=
  if seconds <? 0 then Some ValueError
  else if seconds <=? sleep_safe then None
  else timer_refuses seconds.

(** ** core/database/realtime_data.py *)

Module Realtime.

(** One record of the daily journal file. *)
Record JournalRecord : Type := mkJournalRecord {
  journal_timestamp : string;
  journal_rates : Snapshot
}.

(** What a journal file holds: the records of a JSON array, or something
    [json.load] and [append] do not get through (a text that a failed
    [json.dump] left cut, for one). *)
Inductive JournalFile : Type :=
  | Records (records : list JournalRecord)
  | Unreadable.

(** What the outside answers during one pass of the update loop. *)
Record Tick : Type := mkTick {
  (** [self.stop_flag.is_set()] at the head of the loop *)
  stop_flag_is_set : bool;
  (** [datetime.now().isoformat()] in [_update_data] *)
  now : string;
  (** [APIConnector.get_exchange_rate]: a rate, [None] (also when the
      request failed), or an exception the connector does not catch
      (a [rate] field that [float] refuses, for one) *)
  get_exchange_rate : string -> string -> result (option num);
  (** the journal file name and time of [_save_data_to_file] *)
  journal_filename : string;
  journal_now : string;
  (** whether an input or output error interrupts [_save_data_to_file] *)
  journal_fails : bool;
  (** whether that error comes while [json.dump] writes, after
      [open(filename, 'w')] has emptied the file (otherwise it comes
      before) *)
  journal_cut : bool;
  (** [time.sleep] at an argument above [sleep_safe] *)
  timer_refuses : Z -> option exn
}.

(** [RealtimeDataManager].  [journal] is the content of the files under
    [data/]; [slept] lists the arguments of the calls of [time.sleep]
    made by the update loop, oldest first, those that raised included. *)
Record RealtimeDataManager : Type := mkManager {
  update_interval : Z;
  currency_pairs : list string;
  latest_data : Snapshot;
  journal : gmap string JournalFile;
  slept : list Z
}.

Definition set_latest_data (d : Snapshot) (m : RealtimeDataManager) :=
  {| update_interval := update_interval m;
     currency_pairs := currency_pairs m;
     latest_data := d;
     journal := journal m;
     slept := slept m |}.

Definition set_journal (j : gmap string JournalFile)
    (m : RealtimeDataManager) :=
  {| update_interval := update_interval m;
     currency_pairs := currency_pairs m;
     latest_data := latest_data m;
     journal := j;
     slept := slept m |}.

Definition record_sleep (seconds : Z) (m : RealtimeDataManager) :=
  {| update_interval := update_interval m;
     currency_pairs := currency_pairs m;
     latest_data := latest_data m;
     journal := journal m;
     slept := slept m ++ [seconds] |}.

(** [time.sleep(seconds)] *)
Definition sleep (w : Tick) (seconds : Z) : M RealtimeDataManager unit :=
  modify (record_sleep seconds) ;;
  match sleep_error (timer_refuses w) seconds with
  | Some e => raise e
  | None => mret tt
  end.

(** The list set in [__init__]. *)
Definition default_currency_pairs : list string :=
  ["EUR/USD"; "USD/JPY"; "GBP/USD"; "USD/CHF"; "USD/CAD"].

(** [pair.split('/')] *)
Fixpoint split_slash (s : string) : list string :=
  match s with
  | EmptyString => [EmptyString]
  | String c t =>
      if Ascii.eqb c "/" then EmptyString :: split_slash t
      else match split_slash t with
           | [] => [String c EmptyString]
           | h :: r => String c h :: r
           end
  end.

(** [from_currency, to_currency = pair.split('/')], then the fetch. *)
Definition fetch (w : Tick) (pair : string) : result (option num) :=
  match split_slash pair with
  | [from_currency; to_currency] =>
      get_exchange_rate w from_currency to_currency
  | _ => Raise ValueError
  end.

(** The [for pair in self.currency_pairs] loop of [_update_data], from
    the dictionary built so far. *)
Fixpoint fetch_all (w : Tick) (pairs : list string) (updated_data : Snapshot)
    : result Snapshot :=
  match pairs with
  | [] => Ok updated_data
  | p :: rest =>
      match fetch w p with
      | Ok (Some r) =>
          fetch_all w rest (<[p := mkQuote r (now w)]> updated_data)
      | Ok None => fetch_all w rest updated_data
      | Raise e => Raise e
      end
  end.

(** The records [json.load] and [append] get from the file, if any. *)
Definition read_journal (file : option JournalFile)
    : result (list JournalRecord) :=
  match file with
  | None => Ok []
  | Some (Records existing_data) => Ok existing_data
  | Some Unreadable => Raise ValueError
  end.

(** [_save_data_to_file]: the whole body is in a [try], the handler logs.
    The file is read, then opened with mode ['w'], which empties it, then
    written. *)
Definition _save_data_to_file (w : Tick) (data : Snapshot)
    : M RealtimeDataManager unit :=
  try_except
    (let filename := journal_filename w in
     file ← gets (fun m => journal m !! filename);
     existing_data ← lift (read_journal file);
     let record := mkJournalRecord (journal_now w) data in
     if journal_fails w then
       (if journal_cut w then
          modify (fun m => set_journal (<[filename := Unreadable]> (journal m)) m)
        else mret tt) ;;
       raise OSError
     else
       modify (fun m =>
         set_journal
           (<[filename := Records (existing_data ++ [record])]> (journal m)) m))
    (fun _ => mret tt).

(** [_update_data] *)
Definition _update_data (w : Tick) : M RealtimeDataManager unit :=
  pairs ← gets currency_pairs;
  updated_data ← lift (fetch_all w pairs ∅);
  modify (set_latest_data updated_data) ;;
  _save_data_to_file w updated_data.

(** The body of the [while] loop of [_update_loop]. *)
Definition _update_loop_body (w : Tick) : M RealtimeDataManager unit :=
  try_except
    (_update_data w ;;
     interval ← gets update_interval;
     sleep w interval)
    (fun _ => sleep w 5).

(** [_update_loop], along the answers of the successive passes. *)
Fixpoint _update_loop (ticks : list Tick) : M RealtimeDataManager unit :=
  match ticks with
  | [] => mret tt
  | w :: rest =>
      if stop_flag_is_set w then mret tt
      else _update_loop_body w ;; _update_loop rest
  end.

(** [get_latest_data]: a copy of the dictionary. *)
Definition get_latest_data : M RealtimeDataManager Snapshot :=
  gets latest_data.

(** [get_latest_rate] *)
Definition get_latest_rate (currency_pair : string)
    : M RealtimeDataManager (option num) :=
  gets (fun m =>
          match latest_data m !! currency_pair with
          | Some quote => Some (rate quote)
          | None => None
          end).

End Realtime.

(** ** strategies/single_currency/simple_strategy.py *)

Module Simple.

Record SimpleStrategy : Type := mkStrategy {
  currency_pair : string;
  threshold_percent : num;
  trade_amount : Q;
  previous_rate : option num
}.

(** [SimpleStrategy(currency_pair, threshold_percent, trade_amount)] *)
Definition init (currency_pair : string) (threshold_percent : num)
    (trade_amount : Q) : SimpleStrategy :=
  mkStrategy currency_pair threshold_percent trade_amount None.

Definition set_previous_rate (r : num) (s : SimpleStrategy) : SimpleStrategy :=
  {| currency_pair := currency_pair s;
     threshold_percent := threshold_percent s;
     trade_amount := trade_amount s;
     previous_rate := Some r |}.

(** [((current_rate - previous_rate) / previous_rate) * 100], each
    operation rounded; the division of Python floats raises on a zero
    divisor. *)
Definition percent_change (current_rate prev : num) : result num :=
  match Num.py_div (Num.sub current_rate prev) prev with
  | Ok quotient => Ok (Num.mul quotient (Num.of_Z 100))
  | Raise e => Raise e
  end.

(** The [if / elif / else] of lines 62-89. *)
Definition decide_change (s : SimpleStrategy) (current_rate change : num)
    : Decision :=
  if Num.leb change (Num.opp (threshold_percent s)) then
    ShouldTrade
      {| action := buy;
         currency := currency_pair s;
         amount := trade_amount s;
         price := current_rate;
         reason := PriceDrop (currency_pair s) (Num.abs change)
                             (threshold_percent s) |}
  else if Num.geb change (threshold_percent s) then
    ShouldTrade
      {| action := sell;
         currency := currency_pair s;
         amount := trade_amount s;
         price := current_rate;
         reason := PriceRise (currency_pair s) change (threshold_percent s) |}
  else NoTrade.

(** [make_decision] *)
Definition make_decision (market_data : Snapshot) : M SimpleStrategy Decision :=
  s ← gets id;
  match market_data !! currency_pair s with
  | None => mret NoTrade
  | Some quote =>
      let current_rate := rate quote in
      match previous_rate s with
      | None =>
          modify (set_previous_rate current_rate) ;;
          mret NoTrade
      | Some prev =>
          change ← lift (percent_change current_rate prev);
          let decision := decide_change s current_rate change in
          modify (set_previous_rate current_rate) ;;
          mret decision
      end
  end.

(** Successive calls of [make_decision], one for each snapshot. *)
Fixpoint feed (snapshots : list Snapshot) (s : SimpleStrategy)
    : list (result Decision) * SimpleStrategy :=
  match snapshots with
  | [] => ([], s)
  | market_data :: rest =>
      let '(r, s') := make_decision market_data s in
      let '(rs, s'') := feed rest s' in
      (r :: rs, s'')
  end.

(** [set_parameters]: [if currency_pair:] passes neither [None] nor the
    empty string; the two numbers are tested with [is not None]. *)
Definition set_parameters (new_pair : option string)
    (new_threshold : option num) (new_amount : option Q)
    (s : SimpleStrategy) : SimpleStrategy :=
  {| currency_pair :=
       match new_pair with
       | Some (String c t) => String c t
       | Some EmptyString | None => currency_pair s
       end;
     threshold_percent := default (threshold_percent s) new_threshold;
     trade_amount := default (trade_amount s) new_amount;
     previous_rate := previous_rate s |}.

End Simple.

(** ** strategies/multi_currency/correlation_strategy.py *)

Module Correlation.

Import Historical.

Record CorrelationStrategy : Type := mkStrategy {
  primary_pair : string;
  secondary_pairs : list string;
  correlation_window : nat;
  divergence_threshold : num;
  trade_amount : Q;
  historical_data : HistoricalDataManager;
  historical_correlations : gmap string num
}.

Definition set_historical_data (h : HistoricalDataManager)
    (s : CorrelationStrategy) : CorrelationStrategy :=
  {| primary_pair := primary_pair s;
     secondary_pairs := secondary_pairs s;
     correlation_window := correlation_window s;
     divergence_threshold := divergence_threshold s;
     trade_amount := trade_amount s;
     historical_data := h;
     historical_correlations := historical_correlations s |}.

Definition set_historical_correlation (k : string) (c : num)
    (s : CorrelationStrategy) : CorrelationStrategy :=
  {| primary_pair := primary_pair s;
     secondary_pairs := secondary_pairs s;
     correlation_window := correlation_window s;
     divergence_threshold := divergence_threshold s;
     trade_amount := trade_amount s;
     historical_data := historical_data s;
     historical_correlations := <[k := c]> (historical_correlations s) |}.

(** A call of a method of [self.historical_data]. *)
Definition on_historical_data {A} (m : M HistoricalDataManager A)
    : M CorrelationStrategy A :=
  fun s =>
    let '(r, h) := m (historical_data s) in
    (r, set_historical_data h s).

(** One value of [divergence_data]. *)
Record Entry : Type := mkEntry {
  correlation : num;
  primary_change : num;
  secondary_change : num;
  divergence : num
}.

(** [divergence_data]: a dictionary, read in insertion order. *)
Definition Dict : Type := list (string * Entry).

(** [d[k] = e]: a key already there keeps its place. *)
Fixpoint dict_set (k : string) (e : Entry) (d : Dict) : Dict :=
  match d with
  | [] => [(k, e)]
  | (k', e') :: rest =>
      if String.eqb k' k then (k, e) :: rest
      else (k', e') :: dict_set k e rest
  end.

Fixpoint dict_lookup (k : string) (d : Dict) : option Entry :=
  match d with
  | [] => None
  | (k', e') :: rest => if String.eqb k' k then Some e' else dict_lookup k rest
  end.

(** [d[k]], a [KeyError] without the key; [None] is never a key here. *)
Definition dict_get (k : option string) (d : Dict) : result Entry :=
  match k with
  | None => Raise KeyError
  | Some k0 =>
      match dict_lookup k0 d with
      | Some e => Ok e
      | None => Raise KeyError
      end
  end.

(** [market_data[pair]['rate']] *)
Definition rate_of (market_data : Snapshot) (pair : string) : result num :=
  match market_data !! pair with
  | Some quote => Ok (rate quote)
  | None => Raise KeyError
  end.

(** [df['rate'].iloc[-2] if len(df) > 1 else df['rate'].iloc[-1]] *)
Definition prev_close (df : DataFrame) : result num :=
  match rev (rates df) with
  | [] => Raise IndexError
  | [r] => Ok r
  | _ :: r :: _ => Ok r
  end.

(** [correlation.iloc[-1] if not correlation.empty else 0] *)
Definition latest (correlation : list num) : num :=
  match rev correlation with
  | [] => Num.zero
  | c :: _ => c
  end.

(** The secondary pairs [__init__] takes when it is given none. *)
Definition default_secondary_pairs : list string := ["GBP/USD"; "AUD/USD"].

(** [CorrelationStrategy(...)], over the files of [data/historical]. *)
Definition init (primary_pair : string) (secondary_pairs : option (list string))
    (correlation_window : nat) (divergence_threshold : num) (trade_amount : Q)
    (files : gmap string (list PricePoint)) : CorrelationStrategy :=
  {| primary_pair := primary_pair;
     secondary_pairs := default default_secondary_pairs secondary_pairs;
     correlation_window := correlation_window;
     divergence_threshold := divergence_threshold;
     trade_amount := trade_amount;
     historical_data := Historical.mkManager "data/historical" files [];
     historical_correlations := ∅ |}.

Section Strategy.

Variable align : DataFrame -> DataFrame -> list (num * num).
Variable pearson : nat -> list (num * num) -> num.
Variable w : World.

(** The body of the loop over [self.secondary_pairs] in
    [_calculate_divergence]: the dictionary after this pair. *)
Definition calculate_one (market_data : Snapshot) (start_date end_date : Z)
    (primary_data : DataFrame) (secondary_pair : string)
    (divergence_data : Dict) : M CorrelationStrategy Dict :=
  s ← gets id;
  secondary_data ← on_historical_data
    (load_historical_data w secondary_pair (Some start_date) (Some end_date));
  if empty secondary_data then mret divergence_data
  else
    correlation ← on_historical_data
      (get_correlation align pearson w (primary_pair s) secondary_pair
         (correlation_window s) (Some start_date) (Some end_date));
    let latest_correlation := latest correlation in
    modify (set_historical_correlation secondary_pair latest_correlation) ;;
    primary_current ← lift (rate_of market_data (primary_pair s));
    secondary_current ← lift (rate_of market_data secondary_pair);
    primary_prev ← lift (prev_close primary_data);
    secondary_prev ← lift (prev_close secondary_data);
    let primary_change :=
      Num.div (Num.sub primary_current primary_prev) primary_prev in
    let secondary_change :=
      Num.div (Num.sub secondary_current secondary_prev) secondary_prev in
    let divergence :=
      Num.sub primary_change
              (Num.mul secondary_change (Num.sign latest_correlation)) in
    mret (dict_set secondary_pair
            {| correlation := latest_correlation;
               primary_change := primary_change;
               secondary_change := secondary_change;
               divergence := divergence |}
            divergence_data).

Fixpoint calculate_all (market_data : Snapshot) (start_date end_date : Z)
    (primary_data : DataFrame) (pairs : list string)
    (divergence_data : Dict) : M CorrelationStrategy Dict :=
  match pairs with
  | [] => mret divergence_data
  | secondary_pair :: rest =>
      divergence_data ← calculate_one market_data start_date end_date
                          primary_data secondary_pair divergence_data;
      calculate_all market_data start_date end_date primary_data rest
                    divergence_data
  end.

(** [_calculate_divergence] *)
Definition _calculate_divergence (market_data : Snapshot)
    : M CorrelationStrategy Dict :=
  s ← gets id;
  let end_date := today w in
  let start_date := today w - Z.of_nat (correlation_window s * 2) in
  primary_data ← on_historical_data
    (load_historical_data w (primary_pair s) (Some start_date) (Some end_date));
  if empty primary_data then mret []
  else calculate_all market_data start_date end_date primary_data
                     (secondary_pairs s) [].

(** The scan for the largest [abs(divergence)], lines 80-86: the
    pair and value held after the items given. *)
Fixpoint scan_max (items : Dict) (max_divergence_pair : option string)
    (max_divergence_value : num) : option string * num :=
  match items with
  | [] => (max_divergence_pair, max_divergence_value)
  | (k, data) :: rest =>
      if Num.gtb (Num.abs (divergence data)) max_divergence_value then
        scan_max rest (Some k) (Num.abs (divergence data))
      else scan_max rest max_divergence_pair max_divergence_value
  end.

(** Lines 96-99. *)
Definition direction (correlation divergence : num) : Action :=
  if Num.gtb correlation Num.zero then
    if Num.gtb divergence Num.zero then sell else buy
  else
    if Num.gtb divergence Num.zero then buy else sell.

(** Lines 79-116: the decision from the divergence data. *)
Definition decide (s : CorrelationStrategy) (market_data : Snapshot)
    (divergence_data : Dict) : result Decision :=
  let '(max_divergence_pair, max_divergence_value) :=
    scan_max divergence_data None Num.zero in
  if Num.gtb max_divergence_value (divergence_threshold s) then
    match dict_get max_divergence_pair divergence_data with
    | Raise e => Raise e
    | Ok data =>
        match rate_of market_data (primary_pair s) with
        | Raise e => Raise e
        | Ok primary_rate =>
            Ok (ShouldTrade
                  {| action := direction (correlation data) (divergence data);
                     currency := primary_pair s;
                     amount := trade_amount s;
                     price := primary_rate;
                     reason := Divergence (primary_pair s) max_divergence_pair
                                 (divergence data) (divergence_threshold s) |})
        end
    end
  else Ok NoTrade.

(** [pair in market_data] for every secondary pair. *)
Definition all_present (market_data : Snapshot) (pairs : list string) : bool :=
  forallb (fun p => bool_decide (is_Some (market_data !! p))) pairs.

(** [make_decision] *)
Definition make_decision (market_data : Snapshot)
    : M CorrelationStrategy Decision :=
  s ← gets id;
  if negb (bool_decide (is_Some (market_data !! primary_pair s))) then
    mret NoTrade
  else if negb (all_present market_data (secondary_pairs s)) then
    mret NoTrade
  else
    divergence_data ← _calculate_divergence market_data;
    match divergence_data with
    | [] => mret NoTrade
    | _ :: _ =>
        s ← gets id;
        lift (decide s market_data divergence_data)
    end.

End Strategy.





End Correlation.

(** ** core/engine/trading_bot.py *)

Module Bot.

(** What [TradingBot] asks of its data manager. *)
Class DataManager (D : Type) : Type := {
  get_latest_data : M D Snapshot
}.

(** What [TradingBot] asks of its strategy. *)
Class Strategy (S : Type) : Type := {
  make_decision : Snapshot -> M S Decision
}.

(** One element of [trade_history]. *)
Record TradeRecord : Type := mkTradeRecord {
  record_timestamp : string;
  record_action : Action;
  record_currency : string;
  record_amount : Q;
  record_price : num;
  record_reason : Reason
}.

(** What the outside answers during one cycle. *)
Record Cycle : Type := mkCycle {
  (** [datetime.now().isoformat()] *)
  now : string;
  (** whether [print] raises (a console that cannot encode the text) *)
  print_fails : bool
}.

Section TradingBot.

Context {D S : Type} `{DataManager D} `{Strategy S}.

Record TradingBot : Type := mkBot {
  data_manager : D;
  strategy : S;
  trade_mode : string;
  is_running : bool;
  trade_history : list TradeRecord
}.

Definition on_data_manager {A} (m : M D A) : M TradingBot A :=
  fun b =>
    let '(r, d) := m (data_manager b) in
    (r, {| data_manager := d;
           strategy := strategy b;
           trade_mode := trade_mode b;
           is_running := is_running b;
           trade_history := trade_history b |}).

Definition on_strategy {A} (m : M S A) : M TradingBot A :=
  fun b =>
    let '(r, s) := m (strategy b) in
    (r, {| data_manager := data_manager b;
           strategy := s;
           trade_mode := trade_mode b;
           is_running := is_running b;
           trade_history := trade_history b |}).

(** [self.trade_history.append(trade_record)] *)
Definition append_history (r : TradeRecord) : M TradingBot unit :=
  modify (fun b =>
    {| data_manager := data_manager b;
       strategy := strategy b;
       trade_mode := trade_mode b;
       is_running := is_running b;
       trade_history := trade_history b ++ [r] |}).

(** The [trade_record] dictionary of [_execute_trade]. *)
Definition trade_record (w : Cycle) (decision : Trade) : TradeRecord :=
  {| record_timestamp := now w;
     record_action := action decision;
     record_currency := currency decision;
     record_amount := amount decision;
     record_price := price decision;
     record_reason := reason decision |}.

(** [_execute_trade]: the record, the log line, the append, the prints. *)
Definition _execute_trade (w : Cycle) (decision : Trade) : M TradingBot unit :=
  append_history (trade_record w decision) ;;
  if print_fails w then raise OSError else mret tt.

(** [check_and_execute] *)
Definition check_and_execute (w : Cycle) : M TradingBot bool :=
  try_except
    (current_data ← on_data_manager get_latest_data;
     decision ← on_strategy (make_decision current_data);
     match decision with
     | ShouldTrade t => _execute_trade w t
     | NoTrade => mret tt
     end ;;
     mret true)
    (fun _ => mret false).

(** [TradingBot(data_manager, strategy, trade_mode)] *)
Definition init (data_manager : D) (strategy : S) (trade_mode : string)
    : TradingBot :=
  {| data_manager := data_manager;
     strategy := strategy;
     trade_mode := trade_mode;
     is_running := false;
     trade_history := [] |}.

(** The same bot in another trade mode. *)
Definition set_trade_mode (mode : string) (b : TradingBot) : TradingBot :=
  {| data_manager := data_manager b;
     strategy := strategy b;
     trade_mode := mode;
     is_running := is_running b;
     trade_history := trade_history b |}.

(** [get_trade_history] *)
Definition get_trade_history : M TradingBot (list TradeRecord) :=
  gets trade_history.

(** [time.sleep(config.getint('Settings', 'check_interval',
    fallback=300))] in the loop of [main]: [check_interval] is what
    [getint] gives, a [ValueError] when the text of the option is no
    integer. *)
Definition pause (check_interval : result Z) (timer_refuses : Z -> option exn)
    : M TradingBot unit :=
  seconds ← lift check_interval;
  match sleep_error timer_refuses seconds with
  | Some e => raise e
  | None => mret tt
  end.

(** The [while True] loop of [main]: a call of [check_and_execute], then
    the pause, which is in no [try]: what it raises ends the loop.  The
    results are those of the calls made. *)
Fixpoint main_loop (check_interval : result Z)
    (timer_refuses : Z -> option exn) (cycles : list Cycle)
    : M TradingBot (list bool) :=
  match cycles with
  | [] => mret []
  | w :: rest =>
      ok ← check_and_execute w;
      pause check_interval timer_refuses ;;
      oks ← main_loop check_interval timer_refuses rest;
      mret (ok :: oks)
  end.

End TradingBot.

Arguments TradingBot D S : clear implicits.

End Bot.

(** ** tests: the data manager that replays a list of snapshots *)

Module Mock.

Record MockDataManager : Type := mkMock {
  mock_data_sequence : list Snapshot;
  current_index : nat
}.

(** [get_latest_data]: the next snapshot, then the last one again and
    again; [self.mock_data_sequence[-1]] raises on the empty list. *)
Definition get_latest_data : M MockDataManager Snapshot :=
  fun m =>
    match nth_error (mock_data_sequence m) (current_index m) with
    | Some data =>
        (Ok data, {| mock_data_sequence := mock_data_sequence m;
                     current_index := S (current_index m) |})
    | None =>
        match rev (mock_data_sequence m) with
        | data :: _ => (Ok data, m)
        | [] => (Raise IndexError, m)
        end
    end.

End Mock.

(** ** The classes that play the two roles *)

#[export] Instance realtime_data_manager : Bot.DataManager Realtime.RealtimeDataManager :=
  {| Bot.get_latest_data := Realtime.get_latest_data |}.

#[export] Instance mock_data_manager : Bot.DataManager Mock.MockDataManager :=
  {| Bot.get_latest_data := Mock.get_latest_data |}.

#[export] Instance simple_strategy : Bot.Strategy Simple.SimpleStrategy :=
  {| Bot.make_decision := Simple.make_decision |}.

Definition correlation_strategy
    (align : DataFrame -> DataFrame -> list (num * num))
    (pearson : nat -> list (num * num) -> num)
    (w : Historical.World) : Bot.Strategy Correlation.CorrelationStrategy :=
  {| Bot.make_decision := Correlation.make_decision align pearson w |}.

(** ** Concrete inputs *)

Module Examples.

(** A row, its rate written as a decimal literal. *)
Definition point (d : Z) (r : Q) : PricePoint := (d, Num.of_Q r).

(** A store whose [USD/JPY] file holds three days, and a refresh that
    fetches the second day again and a fourth. *)
Definition cached_three : Historical.HistoricalDataManager :=
  Historical.mkManager "data/historical"
    {[ "data/historical/USD_JPY.json" :=
         [point 1 150; point 2 151; point 3 152] ]} [].

Definition refetch_two (today : Z) : Historical.World :=
  Historical.mkWorld today
    (fun _ _ _ => Ok [point 2 (1515 # 10); point 4 153])
    (fun _ => false).

(** A refresh of the two days that follow the cached ones. *)
Definition fetch_next (today : Z) : Historical.World :=
  Historical.mkWorld today
    (fun _ _ _ => Ok [point 3 (1525 # 10); point 4 153])
    (fun _ => false).

(** An empty store, and an answer that carries one date twice. *)
Definition no_cache : Historical.HistoricalDataManager :=
  Historical.mkManager "data/historical" ∅ [].

Definition repeated_day (today : Z) : Historical.World :=
  Historical.mkWorld today
    (fun _ _ _ => Ok [point 1 150; point 1 151])
    (fun _ => false).

(** The API finds nothing, or fails. *)
Definition nothing_new (today : Z) : Historical.World :=
  Historical.mkWorld today (fun _ _ _ => Ok []) (fun _ => false).

Definition api_down (today : Z) : Historical.World :=
  Historical.mkWorld today (fun _ _ _ => Raise OtherError) (fun _ => false).

(** Quotes: only EUR/USD answers; or EUR/USD answers and the fetch of
    USD/JPY raises. *)
Definition quote_eur_only (from_currency to_currency : string)
    : result (option num) :=
  if String.eqb from_currency "EUR" then Ok (Some (Num.of_Q (11 # 10)))
  else Ok None.

Definition quote_then_raise (from_currency to_currency : string)
    : result (option num) :=
  if String.eqb from_currency "EUR" then Ok (Some (Num.of_Q (11 # 10)))
  else if String.eqb to_currency "JPY" then Raise ValueError
  else Ok None.

(** No argument of [time.sleep] is refused. *)
Definition patient (seconds : Z) : option exn := None.

Definition tick_eur_only : Realtime.Tick :=
  Realtime.mkTick false "2024-01-02T10:00:00" quote_eur_only
                  "data/realtime_20240102.json" "2024-01-02T10:00:01"
                  false false patient.

Definition tick_raises : Realtime.Tick :=
  Realtime.mkTick false "2024-01-02T10:01:00" quote_then_raise
                  "data/realtime_20240102.json" "2024-01-02T10:01:01"
                  false false patient.

Definition tick_journal_fails : Realtime.Tick :=
  Realtime.mkTick false "2024-01-02T10:02:00" quote_eur_only
                  "data/realtime_20240102.json" "2024-01-02T10:02:01"
                  true false patient.

Definition feed_with_gbp : Realtime.RealtimeDataManager :=
  Realtime.mkManager 60 Realtime.default_currency_pairs
    {[ "GBP/USD" := mkQuote (Num.of_Q (125 # 100)) "2024-01-02T09:59:00" ]}
    ∅ [].

(** A snapshot that holds one pair, and a [SimpleStrategy] that has
    already seen a rate; rates and threshold written as decimal
    literals. *)
Definition quote_of (pair : string) (r : Q) : Snapshot :=
  {[ pair := mkQuote (Num.of_Q r) "2024-01-02T10:00:00" ]}.

Definition watching (pair : string) (threshold prev : Q) : Simple.SimpleStrategy :=
  Simple.mkStrategy pair (Num.of_Q threshold) 1000 (Some (Num.of_Q prev)).

(** The bot of [test_price_drop_buy_signal]. *)
Definition price_drop_bot : Bot.TradingBot Mock.MockDataManager Simple.SimpleStrategy :=
  Bot.mkBot
    (Mock.mkMock [quote_of "USD/JPY" 150; quote_of "USD/JPY" (1455 # 10)] 0)
    (Simple.init "USD/JPY" (Num.of_Z 2) 1000) "paper" false [].

Definition quiet_cycle : Bot.Cycle := Bot.mkCycle "2024-01-03T00:00:00" false.

(** Stand-ins for the two parameters of [get_correlation], for frames in
    which no date is repeated and a window of 2 (or a window longer than
    the history, so that [pearson] is never called).  The rows paired are
    those of the dates both frames have, in the order of the first.  The
    coefficient of two points is the sign of the product of the two
    changes, undefined when a column is constant. *)
Definition align_dates (data1 data2 : DataFrame) : list (num * num) :=
  flat_map
    (fun p => map (fun q => (snd p, snd q))
                  (List.filter (fun q => fst q =? fst p) data2))
    data1.

Definition pearson_of_two (window : nat) (pairs : list (num * num)) : num :=
  match rev pairs with
  | (x2, y2) :: (x1, y1) :: _ =>
      let p := Num.mul (Num.sub x2 x1) (Num.sub y2 y1) in
      if Num.is_zero p then NaN else Num.sign p
  | _ => NaN
  end.

(** Two days of history for EUR/USD and GBP/USD, a strategy that compares
    them, and a snapshot of the two. *)
Definition two_days : Historical.HistoricalDataManager :=
  Historical.mkManager "data/historical"
    (<[ "data/historical/EUR_USD.json" := [point 99 1; point 100 (11 # 10)] ]>
       {[ "data/historical/GBP_USD.json" :=
            [point 99 (12 # 10); point 100 (125 # 100)] ]})
    [].

Definition eur_vs_gbp (window : nat) (threshold : Q)
    : Correlation.CorrelationStrategy :=
  Correlation.mkStrategy "EUR/USD" ["GBP/USD"] window (Num.of_Q threshold)
                         1000 two_days ∅.

Definition market (eur gbp : Q) : Snapshot :=
  <[ "EUR/USD" := mkQuote (Num.of_Q eur) "2024-01-02T10:00:00" ]>
    {[ "GBP/USD" := mkQuote (Num.of_Q gbp) "2024-01-02T10:00:00" ]}.

End Examples.

(** ** Characters of a name *)

(** Whether a character occurs in a string. *)
Fixpoint occurs (c : ascii) (s : string) : bool :=
  match s with
  | EmptyString => false
  | String c' t => Ascii.eqb c' c || occurs c t
  end.

(** The number of occurrences of a character in a string. *)
Fixpoint count_char (c : ascii) (s : string) : nat :=
  match s with
  | EmptyString => 0
  | String c' t => (if Ascii.eqb c' c then 1 else 0) + count_char c t
  end.

(** ** Further concrete inputs *)

Module Scenarios.

Import Examples.

(** A refresh of the two days after the cached ones. *)
Definition fetch_later (today : Z) : Historical.World :=
  Historical.mkWorld today
    (fun _ _ _ => Ok [point 4 153; point 5 154])
    (fun _ => false).

(** A pass of the loop that finds the stop flag set. *)
Definition tick_stop : Realtime.Tick :=
  Realtime.mkTick true "2024-01-02T10:03:00" quote_eur_only
                  "data/realtime_20240102.json" "2024-01-02T10:03:01"
                  false false patient.

(** A feed that polls GBP/USD, then USD/JPY, and holds a quote of
    GBP/USD from an earlier tick. *)
Definition feed_gbp_first : Realtime.RealtimeDataManager :=
  Realtime.mkManager 60 ["GBP/USD"; "USD/JPY"]
    {[ "GBP/USD" := mkQuote (Num.of_Q (125 # 100)) "2024-01-02T09:59:00" ]}
    ∅ [].

(** A feed one of whose pairs is written without the slash. *)
Definition feed_with_bad_pair : Realtime.RealtimeDataManager :=
  Realtime.mkManager 60 ["EUR/USD"; "EURUSD"] ∅ ∅ [].

(** The strategy [CorrelationStrategy()] builds over an empty directory,
    and one that compares EUR/USD with GBP/USD over an empty directory. *)
Definition default_strategy : Correlation.CorrelationStrategy :=
  Correlation.init "EUR/USD" None 30 (Num.of_Q (15 # 10)) 1000 ∅.

Definition without_history : Correlation.CorrelationStrategy :=
  Correlation.init "EUR/USD" (Some ["GBP/USD"]) 30 (Num.of_Q (15 # 10)) 1000 ∅.

End Scenarios.

(** * Properties *)

(** ** The state-and-exception monad *)

Ltac unfold_monad :=
  unfold try_except, mbind, M_bind, mret, M_ret, gets, modify, lift, raise in *.

Lemma bind_ok {S A B : Type} (m : M S A) (f : A -> M S B) (s s' : S) (a : A) :
  m s = (Ok a, s') -> (m ≫= f) s = f a s'.
Proof. intros H. unfold mbind, M_bind. rewrite H. reflexivity. Qed.

Lemma bind_raise {S A B : Type} (m : M S A) (f : A -> M S B) (s s' : S) (e : exn) :
  m s = (Raise e, s') -> (m ≫= f) s = (Raise e, s').
Proof. intros H. unfold mbind, M_bind. rewrite H. reflexivity. Qed.

(** ** Floating-point values *)

Section NumFacts.

Import Num.

(** Comparisons are decided by cases on the two floats: the class, the
    sign, then the exponents and the mantissas. *)
Ltac num_cases :=
  repeat match goal with
         | x : num |- _ => destruct x as [[|]|[|]| |[|] ? ?]
         end;
  unfold nonneg, nonzero, gtb, geb, ltb, leb, eqb, abs, opp, zero,
         SFltb, SFleb, SFeqb, SFabs, SFopp, SFcompare in *;
  cbn [is_zero is_finite CompOpp] in *;
  change (Pos.compare_cont Eq) with Pos.compare in *;
  try tauto; try congruence;
  repeat match goal with
         | H : context [Z.compare ?a ?b] |- _ =>
             destruct (Z.compare_spec a b)
         | |- context [Z.compare ?a ?b] =>
             destruct (Z.compare_spec a b)
         end;
  repeat match goal with
         | H : context [Pos.compare ?a ?b] |- _ =>
             destruct (Pos.compare_spec a b)
         | |- context [Pos.compare ?a ?b] =>
             destruct (Pos.compare_spec a b)
         end;
  cbn [CompOpp] in *;
  try tauto; try congruence; try lia.




Lemma mul_NaN (x : num) : mul x NaN = NaN.
Proof. destruct x; reflexivity. Qed.

Lemma sub_NaN (x : num) : sub x NaN = NaN.
Proof. destruct x; reflexivity. Qed.









Lemma gtb_leb (a b : num) : gtb a b = true -> leb a b = false.
Proof. intros H. num_cases. Qed.





(** With a correlation of zero the secondary change, when it is finite,
    counts for nothing. *)
Lemma mul_zero_finite (x : num) :
  is_finite x = true -> is_zero (mul x zero) = true.
Proof. destruct x; simpl; congruence || reflexivity. Qed.

Lemma sub_zero_eqb (x z : num) :
  x <> NaN -> is_zero z = true -> eqb (sub x z) x = true.
Proof.
  intros Hx Hz. destruct z as [sz| | |]; try discriminate.
  destruct x as [[|]|[|]| |[|] m e]; try congruence; destruct sz;
    try reflexivity;
    unfold sub, eqb, SFsub, SFeqb, SFcompare;
    rewrite Z.compare_refl; change (Pos.compare_cont Eq m m) with (Pos.compare m m);
    rewrite Pos.compare_refl; reflexivity.
Qed.

(** [abs(x) >= t] exactly when [x <= -t] or [x >= t]. *)
Lemma geb_abs (x t : num) :
  geb (abs x) t = leb x (opp t) || geb x t.
Proof. num_cases. Qed.

(** The two tests overlap only for a threshold that is not positive. *)
Lemma leb_opp_geb (x t : num) :
  leb x (opp t) = true -> geb x t = true -> leb t zero = true.
Proof. intros H1 H2. num_cases. Qed.

End NumFacts.

(** ** The historical store *)

Section HistoricalFacts.

Import Historical.
Implicit Types (df old new : DataFrame) (p : PricePoint) (d : Z).

Lemma duplicated_later_In p df :
  duplicated_later p df = true <-> In (fst p) (index df).
Proof.
  unfold duplicated_later, index. rewrite existsb_exists, in_map_iff.
  split.
  - intros [r [Hin Heq]]. exists r. apply Z.eqb_eq in Heq. auto.
  - intros [r [Heq Hin]]. exists r. split; [exact Hin|].
    apply Z.eqb_eq. exact Heq.
Qed.

Lemma duplicated_later_app p df1 df2 :
  duplicated_later p (df1 ++ df2) =
  duplicated_later p df1 || duplicated_later p df2.
Proof. unfold duplicated_later. apply existsb_app. Qed.

Lemma drop_duplicated_In p df :
  In p (drop_duplicated_keep_last df) -> In p df.
Proof.
  induction df as [|q rest IH]; simpl; [tauto|].
  destruct (duplicated_later q rest); simpl; intuition.
Qed.

(** No date is lost. *)
Lemma drop_duplicated_index d df :
  In d (index (drop_duplicated_keep_last df)) <-> In d (index df).
Proof.
  induction df as [|q rest IH]; simpl; [tauto|].
  destruct (duplicated_later q rest) eqn:E; simpl.
  - rewrite IH. apply duplicated_later_In in E. split; [auto|].
    intros [<-|H]; auto.
  - rewrite IH. tauto.
Qed.

Lemma drop_duplicated_NoDup df :
  List.NoDup (index (drop_duplicated_keep_last df)).
Proof.
  induction df as [|q rest IH]; simpl; [constructor|].
  destruct (duplicated_later q rest) eqn:E; simpl; [exact IH|].
  constructor; [|exact IH].
  rewrite drop_duplicated_index. intros H.
  apply duplicated_later_In in H. congruence.
Qed.

(** Without a repeated date nothing is dropped. *)
Lemma drop_duplicated_id df :
  List.NoDup (index df) -> drop_duplicated_keep_last df = df.
Proof.
  induction df as [|q rest IH]; simpl; [reflexivity|].
  intros Hnd. inversion Hnd as [|? ? Hnotin Hnd']; subst.
  destruct (duplicated_later q rest) eqn:E.
  - apply duplicated_later_In in E. contradiction.
  - rewrite (IH Hnd'). reflexivity.
Qed.

(** Of the older rows those stay whose date the newer frame lacks. *)
Lemma drop_duplicated_app old new :
  drop_duplicated_keep_last (old ++ new) =
  List.filter (fun p => negb (duplicated_later p new))
              (drop_duplicated_keep_last old)
  ++ drop_duplicated_keep_last new.
Proof.
  induction old as [|q rest IH]; simpl; [reflexivity|].
  rewrite duplicated_later_app.
  destruct (duplicated_later q rest); simpl; [exact IH|].
  destruct (duplicated_later q new); simpl; rewrite IH; reflexivity.
Qed.

Lemma StronglySorted_filter (f : Z -> bool) (l : list Z) :
  StronglySorted Z.lt l -> StronglySorted Z.lt (List.filter f l).
Proof.
  induction 1 as [|a l Hs IH Hall]; simpl; [constructor|].
  destruct (f a); [|exact IH].
  constructor; [exact IH|].
  rewrite List.Forall_forall in *. intros x Hx.
  apply List.filter_In in Hx. apply Hall. tauto.
Qed.

Lemma StronglySorted_app (l1 l2 : list Z) :
  StronglySorted Z.lt l1 -> StronglySorted Z.lt l2 ->
  (forall x y, In x l1 -> In y l2 -> x < y) ->
  StronglySorted Z.lt (l1 ++ l2).
Proof.
  induction 1 as [|a l Hs IH Hall]; simpl; intros H2 Hlt; [exact H2|].
  constructor.
  - apply IH; [exact H2|]. intros x y Hx Hy. apply Hlt; [right|]; assumption.
  - rewrite List.Forall_forall in *. intros x Hx.
    apply in_app_or in Hx. destruct Hx as [Hx|Hx]; [auto|].
    apply Hlt; [left; reflexivity|exact Hx].
Qed.

Lemma StronglySorted_NoDup (l : list Z) :
  StronglySorted Z.lt l -> List.NoDup l.
Proof.
  induction 1 as [|a l Hs IH Hall]; constructor; [|exact IH].
  intros Hin. rewrite List.Forall_forall in Hall.
  specialize (Hall a Hin). lia.
Qed.

Lemma index_filter (f : PricePoint -> bool) (g : Z -> bool) df :
  (forall p, f p = g (fst p)) ->
  index (List.filter f df) = List.filter g (index df).
Proof.
  intros Hfg. induction df as [|q rest IH]; simpl; [reflexivity|].
  rewrite Hfg. destruct (g (fst q)); simpl; rewrite IH; reflexivity.
Qed.

Lemma drop_duplicated_sorted old new :
  StronglySorted Z.lt (index old) ->
  StronglySorted Z.lt (index new) ->
  (forall d d', In d (index old) -> ~ In d (index new) ->
                In d' (index new) -> d < d') ->
  StronglySorted Z.lt (index (drop_duplicated_keep_last (old ++ new))).
Proof.
  intros Ho Hn Hlt.
  rewrite drop_duplicated_app.
  rewrite (drop_duplicated_id old) by (apply StronglySorted_NoDup; exact Ho).
  rewrite (drop_duplicated_id new) by (apply StronglySorted_NoDup; exact Hn).
  unfold index at 1. rewrite map_app. fold (index new).
  change (map fst ?l) with (index l).
  rewrite (index_filter _ (fun d => negb (existsb (fun r => fst r =? d) new)))
    by reflexivity.
  apply StronglySorted_app; [apply StronglySorted_filter; exact Ho|exact Hn|].
  intros x y Hx Hy. apply List.filter_In in Hx. destruct Hx as [Hx Hf].
  apply (Hlt x y Hx); [|exact Hy].
  intros Hin. apply negb_true_iff in Hf.
  assert (duplicated_later (x, Num.zero) new = true) as E
    by (apply duplicated_later_In; exact Hin).
  unfold duplicated_later in E. simpl in E. congruence.
Qed.

(** A row of the merged frame whose date was fetched is a fetched row. *)
Lemma drop_duplicated_newest old new d r :
  In d (index new) ->
  In (d, r) (drop_duplicated_keep_last (old ++ new)) ->
  In (d, r) new.
Proof.
  intros Hd. rewrite drop_duplicated_app. intros Hin.
  apply in_app_or in Hin. destruct Hin as [Hin|Hin].
  - apply List.filter_In in Hin. destruct Hin as [_ Hf].
    apply negb_true_iff in Hf.
    assert (duplicated_later (d, r) new = true) as E
      by (apply duplicated_later_In; exact Hd).
    congruence.
  - apply drop_duplicated_In. exact Hin.
Qed.

(** What [update_historical_data] does, in one equation: it never
    raises, and it writes exactly when the API gave rows and the file
    could be opened. *)
Lemma update_historical_data_eq (w : World) (cp : string)
    (m : HistoricalDataManager) :
  update_historical_data w cp m =
  (Ok tt,
   let local_data := _load_local_data cp m in
   match get_historical_rates w cp (fst (fetch_range w local_data))
                              (snd (fetch_range w local_data)) with
   | Ok (p :: rest) =>
       if write_fails w (file_path (data_dir m) cp) then m
       else {| data_dir := data_dir m;
               files := <[file_path (data_dir m) cp :=
                            combine local_data (p :: rest)]> (files m);
               saved := saved m ++ [file_path (data_dir m) cp] |}
   | _ => m
   end).
Proof.
  unfold update_historical_data. unfold_monad.
  destruct (fetch_range w (_load_local_data cp m)) as [sd ed] eqn:Hr. simpl.
  destruct (get_historical_rates w cp sd ed) as [[|p rest]|e]; simpl;
    try reflexivity.
  unfold _save_data. unfold_monad. simpl.
  destruct (write_fails w _); reflexivity.
Qed.

End HistoricalFacts.

Section HistoricalClaims.

Import Historical Examples.

(** C1, as amended.  A refresh that fetched rows over a non-empty cached
    series saves the cached rows followed by the fetched rows, with only
    the last row of each date kept, each at its own place: nothing is
    sorted.  So the saved series holds each date at most once, keeps every
    date, and a row whose date was fetched is a fetched row (keep-newest).
    Its dates are ascending when those of the cached series and of the
    batch are, and every cached date the batch does not fetch again comes
    before every date of the batch. *)
Theorem C1_update_keeps_newest (w : World) (cp : string)
    (m : HistoricalDataManager) (new_data : list PricePoint) :
  let old := _load_local_data cp m in
  get_historical_rates w cp (fst (fetch_range w old)) (snd (fetch_range w old))
    = Ok new_data ->
  new_data <> [] ->
  old <> [] ->
  write_fails w (file_path (data_dir m) cp) = false ->
  let result := _load_local_data cp (snd (update_historical_data w cp m)) in
  result = drop_duplicated_keep_last (old ++ new_data) /\
  List.NoDup (index result) /\
  (forall d, In d (index old) \/ In d (index new_data) -> In d (index result)) /\
  (forall d r, In d (index new_data) -> In (d, r) result -> In (d, r) new_data) /\
  (StronglySorted Z.lt (index old) ->
   StronglySorted Z.lt (index new_data) ->
   (forall d d', In d (index old) -> ~ In d (index new_data) ->
                 In d' (index new_data) -> d < d') ->
   StronglySorted Z.lt (index result)).
Proof.
  intros old Hapi Hnew Hold Hw result.
  assert (result = drop_duplicated_keep_last (old ++ new_data)) as Hres.
  { unfold result. rewrite update_historical_data_eq. simpl.
    fold old. rewrite Hapi.
    destruct new_data as [|p rest]; [congruence|].
    rewrite Hw. unfold _load_local_data at 1. simpl.
    rewrite lookup_insert_eq. unfold combine.
    destruct old; [congruence|]. reflexivity. }
  split; [exact Hres|]. rewrite Hres.
  split; [apply drop_duplicated_NoDup|].
  split.
  { intros d Hd. apply drop_duplicated_index.
    unfold index. rewrite map_app. apply in_or_app. exact Hd. }
  split.
  { intros d r. apply drop_duplicated_newest. }
  apply drop_duplicated_sorted.
Qed.


(** C1 at a store of three days refreshed with the third and a fourth. *)
Lemma C1_witness :
  let result :=
    _load_local_data "USD/JPY"
      (snd (update_historical_data (fetch_next 5) "USD/JPY" cached_three)) in
  result = [point 1 150; point 2 151; point 3 (1525 # 10); point 4 153]
  /\ StronglySorted Z.lt (index result).
Proof.
  intros result.
  assert (index (_load_local_data "USD/JPY" cached_three) = [1; 2; 3]) as Ho
    by (vm_compute; reflexivity).
  destruct (C1_update_keeps_newest (fetch_next 5) "USD/JPY" cached_three
              [point 3 (1525 # 10); point 4 153])
    as (Heq & _ & _ & _ & Hs).
  - reflexivity.
  - discriminate.
  - vm_compute. discriminate.
  - reflexivity.
  - split.
    + unfold result. rewrite Heq. vm_compute. reflexivity.
    + apply Hs; rewrite ?Ho; simpl.
      * repeat constructor; lia.
      * repeat constructor; lia.
      * intros d d'. intuition lia.
Defined.

(** C1 as stated fails.  Cached days 1, 2, 3 and a batch of days 2 and 4,
    both ascending: the saved dates are 1, 3, 2, 4.  And with no cached
    data a batch that carries day 1 twice is saved as it is. *)
Lemma C1_counterexample :
  (let result :=
     _load_local_data "USD/JPY"
       (snd (update_historical_data (refetch_two 5) "USD/JPY" cached_three)) in
   StronglySorted Z.lt [1; 2; 3] /\ StronglySorted Z.lt [2; 4] /\
   index result = [1; 3; 2; 4] /\
   ~ StronglySorted Z.lt (index result))
  /\
  (let result :=
     _load_local_data "USD/JPY"
       (snd (update_historical_data (repeated_day 5) "USD/JPY" no_cache)) in
   index result = [1; 1] /\ ~ List.NoDup (index result)).
Proof.
  split.
  - assert (index (_load_local_data "USD/JPY"
              (snd (update_historical_data (refetch_two 5) "USD/JPY" cached_three)))
            = [1; 3; 2; 4]) as E by (vm_compute; reflexivity).
    cbv zeta. rewrite E.
    split; [repeat constructor; lia|].
    split; [repeat constructor; lia|].
    split; [reflexivity|].
    intros H. inversion H as [|a l Hs Hall]; subst.
    inversion Hs as [|a' l' Hs' Hall']; subst.
    inversion Hall' as [|x l'' Hlt _]; subst. lia.
  - assert (index (_load_local_data "USD/JPY"
              (snd (update_historical_data (repeated_day 5) "USD/JPY" no_cache)))
            = [1; 1]) as E by (vm_compute; reflexivity).
    cbv zeta. rewrite E.
    split; [reflexivity|].
    intros H. inversion H as [|a l Hnin _]; subst. apply Hnin. left. reflexivity.
Qed.

(** C10.  When the source returns the empty list, [update_historical_data]
    returns with the manager as it was: no file is changed and nothing is
    added to the list of the saves. *)
Theorem C10_no_new_data_no_write (w : World) (cp : string)
    (m : HistoricalDataManager) :
  let old := _load_local_data cp m in
  get_historical_rates w cp (fst (fetch_range w old)) (snd (fetch_range w old))
    = Ok [] ->
  update_historical_data w cp m = (Ok tt, m).
Proof.
  intros old Hapi. rewrite update_historical_data_eq. simpl.
  fold old. rewrite Hapi. reflexivity.
Qed.

(** C10 at a store of three days and a source that finds nothing. *)
Lemma C10_witness :
  update_historical_data (nothing_new 5) "USD/JPY" cached_three
  = (Ok tt, cached_three).
Proof.
  apply (C10_no_new_data_no_write (nothing_new 5) "USD/JPY" cached_three).
  reflexivity.
Defined.


Lemma filter_from_In (sd : option Z) (df : DataFrame) (p : PricePoint) :
  In p (filter_from sd df) <->
  In p df /\ match sd with Some s => s <= fst p | None => True end.
Proof.
  destruct sd as [s|]; simpl; [|tauto].
  rewrite List.filter_In, Z.leb_le. tauto.
Qed.

Lemma filter_to_In (ed : option Z) (df : DataFrame) (p : PricePoint) :
  In p (filter_to ed df) <->
  In p df /\ match ed with Some e => fst p <= e | None => True end.
Proof.
  destruct ed as [e|]; simpl; [|tauto].
  rewrite List.filter_In, Z.leb_le. tauto.
Qed.

(** C7, as amended.  [load_historical_data] never raises: it returns the
    series cached after the refresh it may have attempted, filtered to
    the dates from [start_date] to [end_date]; with nothing cached and a
    refresh that failed this is the empty series. *)
Theorem C7_load_returns_cache_filtered (w : World) (cp : string)
    (sd ed : option Z) (m : HistoricalDataManager) :
  let local_data := _load_local_data cp m in
  let m' :=
    if empty local_data || _need_update w local_data
    then snd (update_historical_data w cp m) else m in
  let series := filter_to ed (filter_from sd (_load_local_data cp m')) in
  load_historical_data w cp sd ed m = (Ok series, m') /\
  (forall p,
     In p series <->
     In p (_load_local_data cp m') /\
     match sd with Some s => s <= fst p | None => True end /\
     match ed with Some e => fst p <= e | None => True end) /\
  (_load_local_data cp m' = [] -> series = []).
Proof.
  intros local_data m' series. split; [|split].
  - unfold load_historical_data. unfold mbind, M_bind, gets at 1.
    fold local_data. unfold series, m'.
    destruct (empty local_data || _need_update w local_data).
    + rewrite update_historical_data_eq. reflexivity.
    + reflexivity.
  - intros p. unfold series. rewrite filter_to_In, filter_from_In. tauto.
  - unfold series. intros ->. destruct sd, ed; reflexivity.
Qed.

(** C7 as stated fails: with no cached data and a refresh that fails (the
    API raises, or finds nothing) the call does not fail, it returns the
    empty series. *)
Lemma C7_counterexample :
  _load_local_data "USD/JPY" no_cache = [] /\
  get_historical_rates (api_down 5) "USD/JPY" (5 - 5 * 365) 5 = Raise OtherError /\
  load_historical_data (api_down 5) "USD/JPY" (Some 1) (Some 5) no_cache
    = (Ok [], no_cache) /\
  load_historical_data (nothing_new 5) "USD/JPY" (Some 1) (Some 5) no_cache
    = (Ok [], no_cache).
Proof. repeat split; reflexivity. Qed.
End HistoricalClaims.

Lemma surjective_pairing_ok {A S : Type} (x : result A * S) (a : A) :
  fst x = Ok a -> x = (Ok a, snd x).
Proof. destruct x as [r s]. simpl. intros ->. reflexivity. Qed.

(** ** The real-time feed *)

Section RealtimeFacts.

Import Realtime.

(** The quote the loop of [_update_data] leaves for a pair. *)
Lemma fetch_all_lookup (w : Tick) (pairs : list string) (acc : Snapshot) :
  (forall p e, In p pairs -> fetch w p <> Raise e) ->
  exists snapshot,
    fetch_all w pairs acc = Ok snapshot /\
    forall p,
      snapshot !! p =
      match in_dec String.string_dec p pairs, fetch w p with
      | left _, Ok (Some r) => Some (mkQuote r (now w))
      | _, _ => acc !! p
      end.
Proof.
  revert acc. induction pairs as [|p0 rest IH]; intros acc Hok.
  - exists acc. split; [reflexivity|]. intros p. simpl.
    destruct (fetch w p) as [[r|]|e]; reflexivity.
  - assert (forall p e, In p rest -> fetch w p <> Raise e) as Hrest
      by (intros p e Hin; apply Hok; right; exact Hin).
    simpl fetch_all.
    destruct (fetch w p0) as [[r0|]|e0] eqn:E0.
    + destruct (IH (<[p0 := mkQuote r0 (now w)]> acc) Hrest) as (snap & Hs & Hl).
      exists snap. split; [exact Hs|]. intros p. rewrite Hl.
      destruct (String.string_dec p0 p) as [<-|Hne].
      * rewrite E0, lookup_insert_eq.
        destruct (in_dec String.string_dec p0 rest);
          destruct (in_dec String.string_dec p0 (p0 :: rest)) as [|n'];
          try reflexivity; exfalso; apply n'; left; reflexivity.
      * rewrite lookup_insert_ne by exact Hne.
        destruct (in_dec String.string_dec p rest) as [i|n];
          destruct (in_dec String.string_dec p (p0 :: rest)) as [i'|n'];
          try reflexivity.
        -- exfalso. apply n'. right. exact i.
        -- exfalso. destruct i' as [->|i']; [congruence|contradiction].
    + destruct (IH acc Hrest) as (snap & Hs & Hl).
      exists snap. split; [exact Hs|]. intros p. rewrite Hl.
      destruct (String.string_dec p0 p) as [<-|Hne].
      * rewrite E0.
        destruct (in_dec String.string_dec p0 rest);
          destruct (in_dec String.string_dec p0 (p0 :: rest)); reflexivity.
      * destruct (in_dec String.string_dec p rest) as [i|n];
          destruct (in_dec String.string_dec p (p0 :: rest)) as [i'|n'];
          try reflexivity.
        -- exfalso. apply n'. right. exact i.
        -- exfalso. destruct i' as [->|i']; [congruence|contradiction].
    + exfalso. apply (Hok p0 e0); [left; reflexivity|exact E0].
Qed.

(** What [_save_data_to_file] leaves in the files. *)
Lemma _save_data_to_file_eq (w : Tick) (data : Snapshot) (m : RealtimeDataManager) :
  _save_data_to_file w data m =
  (Ok tt,
   match read_journal (journal m !! journal_filename w) with
   | Raise _ => m
   | Ok existing_data =>
       if journal_fails w then
         if journal_cut w then
           set_journal (<[journal_filename w := Unreadable]> (journal m)) m
         else m
       else
         set_journal
           (<[journal_filename w :=
                Records (existing_data
                         ++ [mkJournalRecord (journal_now w) data])]>
              (journal m)) m
   end).
Proof.
  unfold _save_data_to_file. unfold_monad.
  destruct (read_journal (journal m !! journal_filename w)); [|reflexivity].
  destruct (journal_fails w); [|reflexivity].
  destruct (journal_cut w); reflexivity.
Qed.

Lemma _save_data_to_file_ok (w : Tick) (data : Snapshot)
    (m : RealtimeDataManager) :
  fst (_save_data_to_file w data m) = Ok tt.
Proof. rewrite _save_data_to_file_eq. reflexivity. Qed.

Lemma _save_data_to_file_frame (w : Tick) (data : Snapshot)
    (m : RealtimeDataManager) :
  let m' := snd (_save_data_to_file w data m) in
  update_interval m' = update_interval m /\
  currency_pairs m' = currency_pairs m /\
  latest_data m' = latest_data m /\
  slept m' = slept m.
Proof.
  rewrite _save_data_to_file_eq. simpl.
  destruct (read_journal _); [|auto].
  destruct (journal_fails w); [destruct (journal_cut w)|]; auto.
Qed.

Lemma _update_data_eq (w : Tick) (m : RealtimeDataManager) :
  _update_data w m =
  match fetch_all w (currency_pairs m) ∅ with
  | Ok snapshot =>
      _save_data_to_file w snapshot (set_latest_data snapshot m)
  | Raise e => (Raise e, m)
  end.
Proof.
  unfold _update_data. unfold_monad.
  destruct (fetch_all w (currency_pairs m) ∅); reflexivity.
Qed.

(** The backoff of five seconds is never refused. *)
Lemma sleep_5 (w : Tick) (m : RealtimeDataManager) :
  sleep w 5 m = (Ok tt, record_sleep 5 m).
Proof. reflexivity. Qed.

Lemma sleep_eq (w : Tick) (seconds : Z) (m : RealtimeDataManager) :
  sleep w seconds m =
  (match sleep_error (timer_refuses w) seconds with
   | Some e => Raise e
   | None => Ok tt
   end, record_sleep seconds m).
Proof.
  unfold sleep. unfold_monad.
  destruct (sleep_error (timer_refuses w) seconds); reflexivity.
Qed.

(** The calls of [time.sleep] of one pass that has fetched every pair:
    the update interval, and the backoff after it when the interval is
    refused. *)
Lemma _update_loop_body_eq (w : Tick) (m : RealtimeDataManager) :
  _update_loop_body w m =
  match fetch_all w (currency_pairs m) ∅ with
  | Ok snapshot =>
      let m1 := snd (_save_data_to_file w snapshot (set_latest_data snapshot m)) in
      let m2 := record_sleep (update_interval m) m1 in
      match sleep_error (timer_refuses w) (update_interval m) with
      | Some _ => (Ok tt, record_sleep 5 m2)
      | None => (Ok tt, m2)
      end
  | Raise e => (Ok tt, record_sleep 5 m)
  end.
Proof.
  unfold _update_loop_body. unfold try_except, mbind, M_bind.
  rewrite _update_data_eq.
  destruct (fetch_all w (currency_pairs m) ∅) as [snapshot|e]; [|reflexivity].
  pose proof (_save_data_to_file_frame w snapshot (set_latest_data snapshot m))
    as (Hi & _).
  rewrite _save_data_to_file_eq in *. simpl in *. unfold gets.
  rewrite sleep_eq, Hi. simpl.
  destruct (sleep_error (timer_refuses w) (update_interval m)); reflexivity.
Qed.

Lemma _update_loop_body_ok (w : Tick) (m : RealtimeDataManager) :
  fst (_update_loop_body w m) = Ok tt.
Proof.
  rewrite _update_loop_body_eq.
  destruct (fetch_all w (currency_pairs m) ∅); [|reflexivity].
  cbv zeta. destruct (sleep_error _ _); reflexivity.
Qed.

Lemma _update_loop_body_slept (w : Tick) (m : RealtimeDataManager) :
  exists calls,
    slept (snd (_update_loop_body w m)) = slept m ++ calls /\
    (1 <= length calls <= 2)%nat.
Proof.
  rewrite _update_loop_body_eq.
  destruct (fetch_all w (currency_pairs m) ∅) as [snapshot|e].
  - pose proof (_save_data_to_file_frame w snapshot (set_latest_data snapshot m))
      as (_ & _ & _ & Hs).
    cbv zeta in *. destruct (sleep_error _ _); simpl; rewrite Hs; simpl.
    + exists [update_interval m; 5]. rewrite <- app_assoc. simpl.
      split; [reflexivity|lia].
    + exists [update_interval m]. simpl. split; [reflexivity|lia].
  - exists [5]. simpl. split; [reflexivity|lia].
Qed.

(** No pass ends the loop: with the stop flag clear all along, every
    tick is followed by a sleep and the next pass. *)
Lemma _update_loop_runs (ticks : list Tick) (m : RealtimeDataManager) :
  Forall (fun w => stop_flag_is_set w = false) ticks ->
  exists m' calls,
    _update_loop ticks m = (Ok tt, m') /\
    slept m' = slept m ++ calls /\
    (length ticks <= length calls <= 2 * length ticks)%nat.
Proof.
  revert m. induction ticks as [|w rest IH]; intros m Hall.
  - exists m, []. split; [reflexivity|]. rewrite app_nil_r.
    split; [reflexivity|simpl; lia].
  - inversion Hall as [|? ? Hw Hrest]; subst.
    simpl. rewrite Hw. unfold mbind, M_bind.
    pose proof (_update_loop_body_ok w m) as Hok.
    destruct (_update_loop_body_slept w m) as (calls1 & Hs1 & Hl1).
    destruct (_update_loop_body w m) as [r m1]. simpl in Hok, Hs1. subst r.
    destruct (IH m1 Hrest) as (m' & calls & Hrun & Hs & Hl).
    exists m', (calls1 ++ calls). split; [exact Hrun|].
    rewrite Hs, Hs1, <- app_assoc. split; [reflexivity|].
    rewrite length_app. simpl. lia.
Qed.

(** The loop of [_update_data] stops at the first fetch that raises. *)
Lemma fetch_all_raises (w : Tick) (before after : list string) (p : string)
    (e : exn) (acc : Snapshot) :
  (forall p' e', In p' before -> fetch w p' <> Raise e') ->
  fetch w p = Raise e ->
  fetch_all w (before ++ p :: after) acc = Raise e.
Proof.
  revert acc. induction before as [|p0 rest IH]; intros acc Hok Hp; simpl.
  - rewrite Hp. reflexivity.
  - assert (forall p' e', In p' rest -> fetch w p' <> Raise e') as Hrest
      by (intros p' e' Hin; apply Hok; right; exact Hin).
    destruct (fetch w p0) as [[r0|]|e0] eqn:E0.
    + apply IH; assumption.
    + apply IH; assumption.
    + exfalso. apply (Hok p0 e0); [left; reflexivity|exact E0].
Qed.
End RealtimeFacts.

Section RealtimeClaims.

Import Realtime Examples Scenarios.

(** C2, as amended.  On a tick where no fetch raises, [_update_data]
    returns and the snapshot it has published holds exactly the
    configured pairs whose fetch gave a rate, each with that rate and the
    time of the tick; a pair of the previous snapshot whose fetch gave
    [None] is absent.  On a tick where a fetch raises nothing is
    published: [_update_data] raises and the manager is as it was. *)
Theorem C2_snapshot_of_this_tick (w : Tick) (m : RealtimeDataManager) :
  ((forall p e, In p (currency_pairs m) -> fetch w p <> Raise e) ->
   exists m',
     _update_data w m = (Ok tt, m') /\
     (forall p q,
        latest_data m' !! p = Some q <->
        In p (currency_pairs m) /\
        exists r, fetch w p = Ok (Some r) /\ q = mkQuote r (now w)) /\
     (forall p,
        is_Some (latest_data m !! p) -> fetch w p = Ok None ->
        latest_data m' !! p = None))
  /\
  (forall before p after e,
     currency_pairs m = before ++ p :: after ->
     (forall p' e', In p' before -> fetch w p' <> Raise e') ->
     fetch w p = Raise e ->
     _update_data w m = (Raise e, m)).
Proof.
  split.
  - intros Hok.
    destruct (fetch_all_lookup w (currency_pairs m) ∅ Hok) as (snap & Hs & Hl).
    rewrite _update_data_eq, Hs.
    pose proof (_save_data_to_file_frame w snap (set_latest_data snap m))
      as (_ & _ & Hpub & _).
    exists (snd (_save_data_to_file w snap (set_latest_data snap m))).
    split; [apply surjective_pairing_ok, _save_data_to_file_ok|].
    cbv zeta in Hpub. rewrite Hpub. simpl.
    split.
    + intros p q. rewrite Hl, lookup_empty.
      destruct (in_dec String.string_dec p (currency_pairs m)) as [i|n].
      * destruct (fetch w p) as [[r|]|e] eqn:E.
        -- split.
           ++ intros [= <-]. split; [exact i|]. exists r. split; reflexivity.
           ++ intros [_ (r' & [= <-] & ->)]. reflexivity.
        -- split; [discriminate|]. intros [_ (r' & Hr & _)]. discriminate.
        -- split; [discriminate|]. intros [_ (r' & Hr & _)]. discriminate.
      * split; [discriminate|]. intros [i _]. contradiction.
    + intros p _ Hnone. rewrite Hl, Hnone, lookup_empty.
      destruct (in_dec String.string_dec p (currency_pairs m)); reflexivity.
  - intros before p after e Hpairs Hbefore Hp.
    rewrite _update_data_eq, Hpairs,
      (fetch_all_raises w before after p e ∅ Hbefore Hp).
    reflexivity.
Qed.

(** C2 at a tick where only EUR/USD answers, after a snapshot that held
    GBP/USD. *)
Lemma C2_witness :
  exists m',
    _update_data tick_eur_only feed_with_gbp = (Ok tt, m') /\
    latest_data m' !! "EUR/USD"
      = Some (mkQuote (Num.of_Q (11 # 10)) "2024-01-02T10:00:00") /\
    latest_data m' !! "GBP/USD" = None.
Proof.
  destruct (C2_snapshot_of_this_tick tick_eur_only feed_with_gbp)
    as [Hpublished _].
  destruct Hpublished as (m' & Hrun & Hexact & Hgone).
  - intros p e Hin. simpl in Hin.
    repeat (destruct Hin as [<-|Hin]; [vm_compute; discriminate|]).
    contradiction.
  - exists m'. split; [exact Hrun|]. split.
    + apply Hexact. split; [simpl; tauto|].
      exists (Num.of_Q (11 # 10)). split; reflexivity.
    + apply Hgone; [|reflexivity].
      exists (mkQuote (Num.of_Q (125 # 100)) "2024-01-02T09:59:00").
      reflexivity.
Defined.

(** C2 as stated fails on a tick where a fetch raises.  The feed polls
    GBP/USD, whose fetch gives [None], then USD/JPY, whose fetch raises:
    the snapshot read after the tick still holds the quote of GBP/USD of
    the tick before. *)
Lemma C2_counterexample :
  is_Some (latest_data feed_gbp_first !! "GBP/USD") /\
  fetch tick_raises "GBP/USD" = Ok None /\
  fetch tick_raises "USD/JPY" = Raise ValueError /\
  (let m' := snd (_update_data tick_raises feed_gbp_first) in
   latest_data m' !! "GBP/USD"
   = Some (mkQuote (Num.of_Q (125 # 100)) "2024-01-02T09:59:00")) /\
  (let m' := snd (_update_loop_body tick_raises feed_gbp_first) in
   fst (get_latest_data m') = Ok (latest_data feed_gbp_first)).
Proof.
  split; [eexists; reflexivity|].
  split; [reflexivity|]. split; [reflexivity|].
  split; reflexivity.
Qed.

(** C8, as amended.  No exception leaves the body of the update loop, so
    with the stop flag clear every tick is followed by a sleep and the
    next pass.  When a fetch raises, no snapshot is published on that
    tick: the previous one stays, nothing is journaled, and the loop
    sleeps the fixed 5 seconds.  When every fetch returns, the snapshot
    of the tick is published whatever becomes of the journal, and the
    loop sleeps the update interval; it sleeps the 5 seconds after it
    only when [time.sleep] refuses the interval.  A failure of the
    journal is caught in [_save_data_to_file]: a file that cannot be
    read is left as it is, and an error while writing leaves the file as
    it was, or cut when it comes after the file was opened for
    writing. *)
Theorem C8_exception_in_a_tick :
  (forall (w : Tick) (m : RealtimeDataManager),
     exists m',
       _update_loop_body w m = (Ok tt, m') /\
       (forall before p after e,
          currency_pairs m = before ++ p :: after ->
          (forall p' e', In p' before -> fetch w p' <> Raise e') ->
          fetch w p = Raise e ->
          latest_data m' = latest_data m /\
          journal m' = journal m /\
          slept m' = slept m ++ [5]) /\
       (forall snapshot,
          fetch_all w (currency_pairs m) ∅ = Ok snapshot ->
          latest_data m' = snapshot /\
          slept m' = slept m ++ update_interval m ::
                     match sleep_error (timer_refuses w) (update_interval m) with
                     | Some _ => [5]
                     | None => []
                     end /\
          (journal m !! journal_filename w = Some Unreadable ->
           journal m' = journal m) /\
          (journal m !! journal_filename w <> Some Unreadable ->
           journal_fails w = true ->
           journal m' = if journal_cut w
                        then <[journal_filename w := Unreadable]> (journal m)
                        else journal m)))
  /\
  (forall (ticks : list Tick) (m : RealtimeDataManager),
     Forall (fun w => stop_flag_is_set w = false) ticks ->
     exists m' calls,
       _update_loop ticks m = (Ok tt, m') /\
       slept m' = slept m ++ calls /\
       (length ticks <= length calls <= 2 * length ticks)%nat).
Proof.
  split; [|apply _update_loop_runs].
  intros w m. eexists. split.
  - apply surjective_pairing_ok. apply _update_loop_body_ok.
  - rewrite _update_loop_body_eq. split.
    + intros before p after e Hpairs Hbefore Hp.
      rewrite Hpairs, (fetch_all_raises w before after p e ∅ Hbefore Hp).
      simpl. auto.
    + intros snapshot Hs. rewrite Hs. cbv zeta.
      pose proof (_save_data_to_file_frame w snapshot (set_latest_data snapshot m))
        as (_ & _ & Hl & Hsl).
      cbv zeta in Hl, Hsl. simpl in Hl, Hsl.
      assert (forall m1 : RealtimeDataManager,
                snd (match sleep_error (timer_refuses w) (update_interval m) with
                     | Some _ =>
                         (Ok tt, record_sleep 5 (record_sleep (update_interval m) m1))
                     | None => (@Ok unit tt, record_sleep (update_interval m) m1)
                     end)
                = match sleep_error (timer_refuses w) (update_interval m) with
                  | Some _ => record_sleep 5 (record_sleep (update_interval m) m1)
                  | None => record_sleep (update_interval m) m1
                  end) as Hsnd
        by (intros m1; destruct (sleep_error _ _); reflexivity).
      rewrite Hsnd. clear Hsnd.
      split; [|split; [|split]].
      * destruct (sleep_error _ _); simpl; exact Hl.
      * destruct (sleep_error _ _); simpl; rewrite Hsl; simpl;
          rewrite <- ?app_assoc; reflexivity.
      * intros Hu. rewrite _save_data_to_file_eq. simpl. rewrite Hu. simpl.
        destruct (sleep_error _ _); reflexivity.
      * intros Hr Hf. rewrite _save_data_to_file_eq. simpl. rewrite Hf.
        destruct (journal m !! journal_filename w) as [[rs|]|] eqn:E;
          try congruence; simpl;
          destruct (journal_cut w); destruct (sleep_error _ _); reflexivity.
Qed.

(** C8 at a tick whose second fetch raises, at a tick whose journal
    cannot be written, and at the loop over both. *)
Lemma C8_witness :
  (exists m',
     _update_loop_body tick_raises feed_with_gbp = (Ok tt, m') /\
     latest_data m' = latest_data feed_with_gbp /\
     slept m' = [5]) /\
  (exists m',
     _update_loop_body tick_journal_fails feed_with_gbp = (Ok tt, m') /\
     latest_data m' !! "EUR/USD"
       = Some (mkQuote (Num.of_Q (11 # 10)) "2024-01-02T10:02:00") /\
     journal m' = ∅ /\
     slept m' = [60]) /\
  (exists m' calls,
     _update_loop [tick_raises; tick_journal_fails] feed_with_gbp = (Ok tt, m') /\
     slept m' = calls /\ (2 <= length calls <= 4)%nat).
Proof.
  destruct C8_exception_in_a_tick as [Htick Hloop].
  split; [|split].
  - destruct (Htick tick_raises feed_with_gbp) as (m' & Hrun & Hfetch & _).
    exists m'. split; [exact Hrun|].
    destruct (Hfetch ["EUR/USD"] "USD/JPY" ["GBP/USD"; "USD/CHF"; "USD/CAD"]
                     ValueError) as (Hl & _ & Hs).
    + reflexivity.
    + intros p' e' [<-|[]]. vm_compute. discriminate.
    + reflexivity.
    + split; [exact Hl|exact Hs].
  - destruct (Htick tick_journal_fails feed_with_gbp) as (m' & Hrun & _ & Hjournal).
    exists m'. split; [exact Hrun|].
    destruct (Hjournal _ eq_refl) as (Hl & Hs & _ & Hj).
    rewrite Hl, Hs, Hj; [|discriminate|reflexivity].
    split; [|split]; reflexivity.
  - destruct (Hloop [tick_raises; tick_journal_fails] feed_with_gbp)
      as (m' & calls & Hrun & Hs & Hl).
    + repeat constructor.
    + exists m', calls. split; [exact Hrun|]. split; [exact Hs|exact Hl].
Defined.

(** C8 as stated fails.  EUR/USD is fetched, then the fetch of USD/JPY
    raises: the snapshot read afterwards is the previous one and has no
    EUR/USD.  And after a journal failure the loop sleeps 60 seconds, the
    update interval, not the backoff. *)
Lemma C8_counterexample :
  fetch tick_raises "EUR/USD" = Ok (Some (Num.of_Q (11 # 10))) /\
  fetch tick_raises "USD/JPY" = Raise ValueError /\
  (let m' := snd (_update_loop_body tick_raises feed_with_gbp) in
   latest_data m' !! "EUR/USD" = None /\
   latest_data m' = latest_data feed_with_gbp) /\
  (let m' := snd (_update_loop_body tick_journal_fails feed_with_gbp) in
   slept m' = [60]).
Proof.
  split; [reflexivity|]. split; [reflexivity|]. split.
  - split; reflexivity.
  - reflexivity.
Qed.
End RealtimeClaims.

(** ** The threshold strategy *)

Section SimpleFacts.

Import Simple.

Lemma make_decision_absent (market_data : Snapshot) (s : SimpleStrategy) :
  market_data !! currency_pair s = None ->
  make_decision market_data s = (Ok NoTrade, s).
Proof.
  intros H. unfold make_decision. unfold_monad. simpl. rewrite H. reflexivity.
Qed.

Lemma make_decision_first (market_data : Snapshot) (s : SimpleStrategy) (q : Quote) :
  market_data !! currency_pair s = Some q ->
  previous_rate s = None ->
  make_decision market_data s = (Ok NoTrade, set_previous_rate (rate q) s).
Proof.
  intros H Hp. unfold make_decision. unfold_monad. simpl. rewrite H, Hp.
  reflexivity.
Qed.

Lemma feed_app (xs ys : list Snapshot) (s : SimpleStrategy) :
  feed (xs ++ ys) s =
  (fst (feed xs s) ++ fst (feed ys (snd (feed xs s))),
   snd (feed ys (snd (feed xs s)))).
Proof.
  revert s. induction xs as [|x xs IH]; intros s; simpl.
  - destruct (feed ys s); reflexivity.
  - destruct (make_decision x s) as [r s1]. rewrite IH.
    destruct (feed xs s1) as [rs s2]. simpl.
    destruct (feed ys s2); reflexivity.
Qed.

Lemma feed_absent (cp : string) (before : list Snapshot) (s : SimpleStrategy) :
  currency_pair s = cp ->
  Forall (fun md : Snapshot => md !! cp = None) before ->
  feed before s = (map (fun _ => Ok NoTrade) before, s).
Proof.
  intros Hcp. induction 1 as [|md rest Hmd Hrest IH]; simpl; [reflexivity|].
  rewrite make_decision_absent by (rewrite Hcp; exact Hmd).
  rewrite IH. reflexivity.
Qed.

End SimpleFacts.

Section SimpleClaims.

Import Simple Examples.

(** C3, as amended.  With a non-zero previous rate and the instrument in
    the snapshot, [make_decision] returns, stores the current rate, and,
    with [pctChange] the float [((cur - prev) / prev) * 100] as the code
    computes it, trades if and only if
    [abs(pctChange) >= threshold_percent]; the trade is a buy at the
    current rate when [pctChange <= -threshold_percent], and a sell at
    the current rate when [pctChange >= threshold_percent] and
    [pctChange > -threshold_percent]: the test for a buy comes first. *)
Theorem C3_threshold_decision (s : SimpleStrategy) (market_data : Snapshot)
    (q : Quote) (prev : num) :
  previous_rate s = Some prev ->
  market_data !! currency_pair s = Some q ->
  Num.is_zero prev = false ->
  let cur := rate q in
  let pct := Num.mul (Num.div (Num.sub cur prev) prev) (Num.of_Z 100) in
  let thr := threshold_percent s in
  exists d,
    make_decision market_data s = (Ok d, set_previous_rate cur s) /\
    (should_trade d = true <-> Num.geb (Num.abs pct) thr = true) /\
    (Num.leb pct (Num.opp thr) = true ->
     exists why, d = ShouldTrade
                       (mkTrade buy (currency_pair s) (trade_amount s) cur why)) /\
    (Num.geb pct thr = true -> Num.gtb pct (Num.opp thr) = true ->
     exists why, d = ShouldTrade
                       (mkTrade sell (currency_pair s) (trade_amount s) cur why)).
Proof.
  intros Hprev Hq Hnz cur pct thr.
  exists (decide_change s cur pct). split.
  - unfold make_decision. unfold_monad. simpl. rewrite Hq, Hprev.
    unfold percent_change, Num.py_div. rewrite Hnz. reflexivity.
  - unfold decide_change. fold thr. rewrite geb_abs.
    destruct (Num.leb pct (Num.opp thr)) eqn:Ebuy.
    + split; [simpl; tauto|]. split.
      * intros _. eexists. reflexivity.
      * intros _ Hgt. apply gtb_leb in Hgt. congruence.
    + destruct (Num.geb pct thr) eqn:Esell.
      * split; [simpl; tauto|]. split; [discriminate|].
        intros _ _. eexists. reflexivity.
      * split; [simpl; split; discriminate|]. split; discriminate.
Qed.

(** C3 at the two scenarios of the tests: 150 to 145.5 buys, 1.1000 to
    1.1275 sells, threshold 2. *)
Lemma C3_witness :
  (exists why,
     make_decision (quote_of "USD/JPY" (1455 # 10)) (watching "USD/JPY" 2 150)
     = (Ok (ShouldTrade
              (mkTrade buy "USD/JPY" 1000 (Num.of_Q (1455 # 10)) why)),
        watching "USD/JPY" 2 (1455 # 10))) /\
  (exists why,
     make_decision (quote_of "EUR/USD" (11275 # 10000))
                   (watching "EUR/USD" 2 (11 # 10))
     = (Ok (ShouldTrade
              (mkTrade sell "EUR/USD" 1000 (Num.of_Q (11275 # 10000)) why)),
        watching "EUR/USD" 2 (11275 # 10000))).
Proof.
  split.
  - destruct (C3_threshold_decision (watching "USD/JPY" 2 150)
                (quote_of "USD/JPY" (1455 # 10))
                (mkQuote (Num.of_Q (1455 # 10)) "2024-01-02T10:00:00")
                (Num.of_Q 150))
      as (d & Hrun & _ & Hbuy & _).
    + reflexivity.
    + reflexivity.
    + reflexivity.
    + destruct Hbuy as (why & ->); [vm_compute; reflexivity|].
      exists why. exact Hrun.
  - destruct (C3_threshold_decision (watching "EUR/USD" 2 (11 # 10))
                (quote_of "EUR/USD" (11275 # 10000))
                (mkQuote (Num.of_Q (11275 # 10000)) "2024-01-02T10:00:00")
                (Num.of_Q (11 # 10)))
      as (d & Hrun & _ & _ & Hsell).
    + reflexivity.
    + reflexivity.
    + reflexivity.
    + destruct Hsell as (why & ->);
        [vm_compute; reflexivity|vm_compute; reflexivity|].
      exists why. exact Hrun.
Defined.

(** C3 as stated fails at a zero threshold and an unchanged rate:
    [pctChange = 0 >= +threshold_percent], and the trade is a buy. *)
Lemma C3_counterexample :
  let s := watching "EUR/USD" 0 1 in
  let pct :=
    Num.mul (Num.div (Num.sub (Num.of_Q 1) (Num.of_Q 1)) (Num.of_Q 1))
            (Num.of_Z 100) in
  Num.geb pct (threshold_percent s) = true /\
  exists why,
    fst (make_decision (quote_of "EUR/USD" 1) s)
    = Ok (ShouldTrade (mkTrade buy "EUR/USD" 1000 (Num.of_Q 1) why)).
Proof.
  split; [vm_compute; reflexivity|].
  eexists. reflexivity.
Qed.

(** The change is the rounded one.  From 2.8 to 0.7 the exact change is
    -75 per cent; the float computed is just above it, and at a threshold
    of 75 nothing is bought.  From 1.1 to 1.1275 the float computed is
    just below 2.5, and at a threshold of 2.5 nothing is sold. *)
Example rounded_change_decides :
  fst (make_decision (quote_of "EUR/USD" (7 # 10))
                     (watching "EUR/USD" 75 (28 # 10))) = Ok NoTrade /\
  fst (make_decision (quote_of "EUR/USD" (11275 # 10000))
                     (watching "EUR/USD" (25 # 10) (11 # 10))) = Ok NoTrade.
Proof. split; vm_compute; reflexivity. Qed.

(** C4.  Fed to a fresh strategy, the snapshots that lack the instrument
    leave it fresh, and the first call whose snapshot has the instrument
    returns no trade and stores the rate of that snapshot. *)
Theorem C4_first_observation (cp : string) (threshold : num) (amount : Q)
    (before after : list Snapshot) (market_data : Snapshot) (q : Quote) :
  Forall (fun md : Snapshot => md !! cp = None) before ->
  market_data !! cp = Some q ->
  let fresh := init cp threshold amount in
  let s := snd (feed before fresh) in
  make_decision market_data s = (Ok NoTrade, set_previous_rate (rate q) fresh) /\
  previous_rate (snd (make_decision market_data s)) = Some (rate q) /\
  nth_error (fst (feed (before ++ market_data :: after) fresh)) (length before)
    = Some (Ok NoTrade).
Proof.
  intros Hbefore Hq fresh s.
  assert (feed before fresh = (map (fun _ => Ok NoTrade) before, fresh)) as Hfeed
    by (apply (feed_absent cp); [reflexivity|exact Hbefore]).
  assert (make_decision market_data fresh
          = (Ok NoTrade, set_previous_rate (rate q) fresh)) as Hfirst
    by (apply make_decision_first; [exact Hq|reflexivity]).
  unfold s. rewrite Hfeed. simpl. rewrite Hfirst. split; [reflexivity|].
  split; [reflexivity|].
  rewrite feed_app, Hfeed. simpl. rewrite Hfirst.
  destruct (feed after _) as [rs s']. simpl.
  rewrite nth_error_app2 by (rewrite length_map; lia).
  rewrite length_map, Nat.sub_diag. reflexivity.
Qed.

(** C4 at a snapshot without USD/JPY followed by one with it. *)
Lemma C4_witness :
  make_decision (quote_of "USD/JPY" 150)
    (snd (feed [quote_of "EUR/USD" 1] (init "USD/JPY" (Num.of_Q 2) 1000)))
  = (Ok NoTrade, watching "USD/JPY" 2 150).
Proof.
  apply (C4_first_observation "USD/JPY" (Num.of_Q 2) 1000
           [quote_of "EUR/USD" 1] []
           (quote_of "USD/JPY" 150)
           (mkQuote (Num.of_Q 150) "2024-01-02T10:00:00")).
  - repeat constructor.
  - reflexivity.
Defined.

End SimpleClaims.

(** ** The decision loop *)

Section BotClaims.

Import Bot.
Context {D S : Type} `{DataManager D} `{Strategy S}.

(** C9.  [check_and_execute] always returns a boolean, whatever the data
    manager and the strategy are: [False] with the trade history as it
    was when the data fetch or the strategy raises; [True] with the
    history as it was on a no-trade decision; and on a trade decision
    exactly one record is appended, the result being [False] only when
    the execution raises after the append. *)
Theorem C9_cycle_outcome (w : Cycle) (b : TradingBot D S) :
  exists ok b',
    check_and_execute w b = (Ok ok, b') /\
    match get_latest_data (data_manager b) with
    | (Raise _, _) => ok = false /\ trade_history b' = trade_history b
    | (Ok current_data, _) =>
        match make_decision current_data (strategy b) with
        | (Raise _, _) => ok = false /\ trade_history b' = trade_history b
        | (Ok NoTrade, _) => ok = true /\ trade_history b' = trade_history b
        | (Ok (ShouldTrade t), _) =>
            ok = negb (print_fails w) /\
            trade_history b' = trade_history b ++ [trade_record w t]
        end
    end.
Proof.
  unfold check_and_execute, on_data_manager, on_strategy, _execute_trade,
    append_history.
  unfold_monad.
  destruct (get_latest_data (data_manager b)) as [[current_data|e] d'].
  - simpl.
    destruct (make_decision current_data (strategy b)) as [[[|t]|e] s']; simpl.
    + do 2 eexists. split; [reflexivity|]. split; reflexivity.
    + destruct (print_fails w); simpl;
        do 2 eexists; (split; [reflexivity|]); split; reflexivity.
    + do 2 eexists. split; [reflexivity|]. split; reflexivity.
  - simpl. do 2 eexists. split; [reflexivity|]. split; reflexivity.
Qed.

End BotClaims.

(** [test_price_drop_buy_signal]: the first cycle trades nothing, the
    second buys at 145.5. *)
Example price_drop_buy_signal :
  let '(r1, b1) := Bot.check_and_execute Examples.quiet_cycle Examples.price_drop_bot in
  let '(r2, b2) := Bot.check_and_execute Examples.quiet_cycle b1 in
  r1 = Ok true /\ Bot.trade_history b1 = [] /\
  r2 = Ok true /\
  map (fun r => (Bot.record_action r, Bot.record_currency r, Bot.record_price r))
      (Bot.trade_history b2)
  = [(buy, "USD/JPY", Num.of_Q (1455 # 10))].
Proof. vm_compute. repeat split; reflexivity. Qed.

(** ** The divergence strategy *)

Section CorrelationFacts.

Import Historical Correlation.
Variable align : DataFrame -> DataFrame -> list (num * num).
Variable pearson : nat -> list (num * num) -> num.
Variable w : World.

Lemma load_historical_data_ok (cp : string) (sd ed : option Z)
    (m : HistoricalDataManager) :
  exists series m', load_historical_data w cp sd ed m = (Ok series, m').
Proof.
  unfold load_historical_data. unfold mbind, M_bind, gets at 1.
  destruct (empty _ || _need_update w _).
  - rewrite update_historical_data_eq. do 2 eexists. reflexivity.
  - do 2 eexists. reflexivity.
Qed.



Lemma empty_false (df : DataFrame) : empty df = false <-> df <> [].
Proof. destruct df; simpl; split; congruence. Qed.


Implicit Types (items data : Dict) (e : Entry) (k : string).





(** *** The dictionary *)





(** *** One secondary pair *)

(** What the body of the loop of [_calculate_divergence] does for one
    secondary pair: it skips a pair without history, and otherwise
    records one well-formed entry; it does not raise when both quotes
    are there and the primary history is not empty. *)
Lemma on_historical_data_ok {A : Type} (m : M HistoricalDataManager A)
    (s : CorrelationStrategy) (a : A) (h : HistoricalDataManager) :
  m (historical_data s) = (Ok a, h) ->
  on_historical_data m s = (Ok a, set_historical_data h s).
Proof. intros H. unfold on_historical_data. rewrite H. reflexivity. Qed.





Lemma make_decision_eq (market_data : Snapshot) (s s' : CorrelationStrategy)
    (q : Quote) (data : Dict) :
  market_data !! primary_pair s = Some q ->
  all_present market_data (secondary_pairs s) = true ->
  _calculate_divergence align pearson w market_data s = (Ok data, s') ->
  make_decision align pearson w market_data s =
  match data with
  | [] => (Ok NoTrade, s')
  | _ :: _ => (decide s' market_data data, s')
  end.
Proof.
  intros Hq Hall Hcalc. unfold make_decision.
  rewrite (bind_ok _ _ s s s) by reflexivity.
  rewrite Hall.
  assert (bool_decide (is_Some (market_data !! primary_pair s)) = true) as ->
    by (apply bool_decide_eq_true; exists q; exact Hq).
  cbn [negb].
  rewrite (bind_ok _ _ _ _ _ Hcalc).
  destruct data; reflexivity.
Qed.



End CorrelationFacts.

Section CorrelationClaims.

Import Historical Correlation Examples.

Lemma latest_app (cs : list num) (x : num) : latest (cs ++ [x]) = x.
Proof. unfold latest. rewrite rev_app_distr. reflexivity. Qed.

Lemma all_present_Forall (market_data : Snapshot) (pairs : list string) :
  Forall (fun p => is_Some (market_data !! p)) pairs ->
  all_present market_data pairs = true.
Proof.
  induction 1 as [|p rest Hp Hrest IH]; simpl; [reflexivity|].
  rewrite IH, andb_true_r. apply bool_decide_eq_true. exact Hp.
Qed.

(** C6, as amended.  For a secondary pair with history, the correlation
    [c] recorded is the last value of the rolling correlation series,
    whatever it is, NaN included, and 0 only when the series is empty;
    the two changes are the floats [(current - previous) / previous], and
    the divergence recorded is the float
    [primaryChange - secondaryChange * sign(c)], which is NaN when [c] is
    NaN, and equals [primaryChange] when [c] is 0, the secondary change
    is finite and the primary change is not NaN. *)
Theorem C6_divergence_of_a_pair
    (align : DataFrame -> DataFrame -> list (num * num))
    (pearson : nat -> list (num * num) -> num) (w : World)
    (market_data : Snapshot) (sd ed : Z)
    (primary_data secondary_data : DataFrame) (sec : string) (data : Dict)
    (s s1 s2 : CorrelationStrategy) (corr : list num)
    (pcur scur pprev sprev : num) :
  on_historical_data (load_historical_data w sec (Some sd) (Some ed)) s
    = (Ok secondary_data, s1) ->
  secondary_data <> [] ->
  on_historical_data
    (get_correlation align pearson w (primary_pair s) sec (correlation_window s)
                     (Some sd) (Some ed)) s1
    = (Ok corr, s2) ->
  rate_of market_data (primary_pair s) = Ok pcur ->
  rate_of market_data sec = Ok scur ->
  prev_close primary_data = Ok pprev ->
  prev_close secondary_data = Ok sprev ->
  let c := latest corr in
  let pchange := Num.div (Num.sub pcur pprev) pprev in
  let schange := Num.div (Num.sub scur sprev) sprev in
  let d := Num.sub pchange (Num.mul schange (Num.sign c)) in
  calculate_one align pearson w market_data sd ed primary_data sec data s
    = (Ok (dict_set sec (mkEntry c pchange schange d) data),
       set_historical_correlation sec c s2) /\
  (corr = [] -> c = Num.zero) /\
  (forall cs x, corr = cs ++ [x] -> c = x) /\
  (c = NaN -> d = NaN) /\
  (Num.is_zero c = true -> Num.is_finite schange = true -> pchange <> NaN ->
   Num.eqb d pchange = true).
Proof.
  intros Hload Hne Hcorr Hp Hs Hpp Hsp c pchange schange d.
  split; [|split; [|split; [|split]]].
  - unfold calculate_one.
    rewrite (bind_ok _ _ s s s) by reflexivity.
    rewrite (bind_ok _ _ _ _ _ Hload).
    apply empty_false in Hne. rewrite Hne.
    rewrite (bind_ok _ _ _ _ _ Hcorr).
    unfold_monad. simpl. rewrite Hp, Hs, Hpp, Hsp. reflexivity.
  - intros ->. reflexivity.
  - intros cs x ->. apply latest_app.
  - intros Hc. unfold d. rewrite Hc. simpl. rewrite mul_NaN. apply sub_NaN.
  - intros Hc Hfin Hnan. unfold d.
    assert (Num.sign c = Num.zero) as -> by (destruct c; try discriminate; reflexivity).
    apply sub_zero_eqb; [exact Hnan|]. apply mul_zero_finite. exact Hfin.
Qed.

(** C6 at two days of history and a window of 2. *)
Lemma C6_witness :
  let s := eur_vs_gbp 2 (1 # 100) in
  let c := Num.of_Z 1 in
  let pchange :=
    Num.div (Num.sub (Num.of_Q (1122 # 1000)) (Num.of_Q 1)) (Num.of_Q 1) in
  let schange :=
    Num.div (Num.sub (Num.of_Q (12375 # 10000)) (Num.of_Q (12 # 10)))
            (Num.of_Q (12 # 10)) in
  calculate_one align_dates pearson_of_two (nothing_new 100)
    (market (1122 # 1000) (12375 # 10000)) 96 100
    [point 99 1; point 100 (11 # 10)] "GBP/USD" [] s
  = (Ok [("GBP/USD",
          mkEntry c pchange schange
                  (Num.sub pchange (Num.mul schange (Num.sign c))))],
     set_historical_correlation "GBP/USD" c s).
Proof.
  apply (C6_divergence_of_a_pair align_dates pearson_of_two (nothing_new 100)
           (market (1122 # 1000) (12375 # 10000)) 96 100
           [point 99 1; point 100 (11 # 10)]
           [point 99 (12 # 10); point 100 (125 # 100)] "GBP/USD" []
           (eur_vs_gbp 2 (1 # 100)) (eur_vs_gbp 2 (1 # 100))
           (eur_vs_gbp 2 (1 # 100)) [NaN; Num.of_Z 1]
           (Num.of_Q (1122 # 1000)) (Num.of_Q (12375 # 10000))
           (Num.of_Q 1) (Num.of_Q (12 # 10))).
  - reflexivity.
  - discriminate.
  - vm_compute. reflexivity.
  - reflexivity.
  - reflexivity.
  - reflexivity.
  - reflexivity.
Defined.

(** C6 as stated fails: with two days of history and a window of 30 the
    series is NaN, NaN; the correlation recorded is NaN, not 0, and the
    divergence is NaN, not the primary change. *)
Lemma C6_counterexample :
  let s := eur_vs_gbp 30 (1 # 100) in
  let md := market (1122 # 1000) (12375 # 10000) in
  fst (get_correlation align_dates pearson_of_two (nothing_new 100)
         "EUR/USD" "GBP/USD" 30 (Some 40) (Some 100) two_days)
    = Ok [NaN; NaN] /\
  exists e,
    fst (_calculate_divergence align_dates pearson_of_two (nothing_new 100) md s)
      = Ok [("GBP/USD", e)] /\
    correlation e = NaN /\
    correlation e <> Num.zero /\
    divergence e = NaN /\
    Num.eqb (divergence e) (primary_change e) = false.
Proof.
  split; [vm_compute; reflexivity|].
  eexists. split; [vm_compute; reflexivity|]. simpl.
  split; [reflexivity|]. split; [discriminate|]. split; reflexivity.
Qed.

(** C5: the code fails the claim at a negative threshold when no rate has
    moved.  The only divergence is 0; it exceeds the threshold, so the
    claim has a trade decided by the sign rule, but the scan, which
    starts from 0 and keeps a pair only on a strict increase, has
    selected none, and [divergence_data[max_divergence_pair]] raises
    [KeyError]. *)
Theorem C5_negative_threshold_raises :
  let s := eur_vs_gbp 2 (- 1 # 2) in
  let md := market 1 (12 # 10) in
  (exists e,
     fst (_calculate_divergence align_dates pearson_of_two (nothing_new 100) md s)
       = Ok [("GBP/USD", e)] /\
     Num.is_zero (divergence e) = true /\
     Num.gtb (Num.abs (divergence e)) (divergence_threshold s) = true) /\
  fst (make_decision align_dates pearson_of_two (nothing_new 100) md s)
    = Raise KeyError.
Proof.
  split; [|vm_compute; reflexivity].
  eexists. split; [vm_compute; reflexivity|]. split; reflexivity.
Qed.

End CorrelationClaims.

(** * Further properties *)

(** ** More of the historical store *)

Section HistoricalMore.

Import Historical Examples Scenarios.
Implicit Types (df old new : DataFrame) (p : PricePoint) (d : Z).

Lemma index_max_In df : df <> [] -> In (index_max df) (index df).
Proof.
  destruct df as [|p rest]; [congruence|]. intros _.
  unfold index_max, index. simpl.
  generalize (fst p) as a. generalize (map fst rest) as l.
  induction l as [|x l IH]; intros a; simpl; [left; reflexivity|].
  destruct (IH (Z.max a x)) as [H|H]; [|right; right; exact H].
  rewrite <- H. destruct (Z.max_spec a x) as [[_ ->]|[_ ->]]; auto.
Qed.

Lemma index_max_ge df d : In d (index df) -> d <= index_max df.
Proof.
  destruct df as [|p rest]; [intros []|].
  unfold index_max, index. simpl.
  generalize (fst p) as a. generalize (map fst rest) as l.
  intros l. revert d. induction l as [|x l IH]; intros d a; simpl.
  - intros [->|[]]. lia.
  - intros [->|[->|H]].
    + specialize (IH (Z.max d x) (Z.max d x) (or_introl eq_refl)). lia.
    + specialize (IH (Z.max a d) (Z.max a d) (or_introl eq_refl)). lia.
    + apply IH. right. exact H.
Qed.

Lemma filter_all {A : Type} (f : A -> bool) (l : list A) :
  (forall x, In x l -> f x = true) -> List.filter f l = l.
Proof.
  induction l as [|a l IH]; simpl; [reflexivity|]. intros H.
  rewrite (H a (or_introl eq_refl)), IH; [reflexivity|].
  intros x Hx. apply H. right. exact Hx.
Qed.

Lemma filter_none {A : Type} (f : A -> bool) (l : list A) :
  (forall x, In x l -> f x = false) -> List.filter f l = [].
Proof.
  induction l as [|a l IH]; simpl; [reflexivity|]. intros H.
  rewrite (H a (or_introl eq_refl)). apply IH.
  intros x Hx. apply H. right. exact Hx.
Qed.

Lemma filter_filter_same {A : Type} (f : A -> bool) (l : list A) :
  List.filter f (List.filter f l) = List.filter f l.
Proof.
  apply filter_all. intros x Hx. apply List.filter_In in Hx. tauto.
Qed.

Lemma In_index p df : In p df -> In (fst p) (index df).
Proof. intros H. unfold index. apply in_map. exact H. Qed.

Lemma update_saves (w : World) (cp : string) (m : HistoricalDataManager)
    (new_data : list PricePoint) :
  let old := _load_local_data cp m in
  get_historical_rates w cp (fst (fetch_range w old)) (snd (fetch_range w old))
    = Ok new_data ->
  new_data <> [] ->
  write_fails w (file_path (data_dir m) cp) = false ->
  _load_local_data cp (snd (update_historical_data w cp m)) = combine old new_data.
Proof.
  intros old Hapi Hnew Hw. rewrite update_historical_data_eq. cbv zeta.
  fold old. rewrite Hapi. destruct new_data as [|p rest]; [congruence|].
  rewrite Hw. unfold _load_local_data at 1. simpl.
  rewrite lookup_insert_eq. reflexivity.
Qed.

Lemma fetch_range_cached (w : World) df :
  df <> [] -> fetch_range w df = (index_max df + 1, today w).
Proof. destruct df; [congruence|reflexivity]. Qed.

Lemma combine_index old new d :
  In d (index new) -> In d (index (combine old new)).
Proof.
  intros H. unfold combine. destruct (negb (empty old)); [|exact H].
  apply drop_duplicated_index. unfold index. rewrite map_app.
  apply in_or_app. right. exact H.
Qed.

Lemma load_fresh (w : World) (cp : string) (sd ed : option Z)
    (m : HistoricalDataManager) (d : Z) :
  In d (index (_load_local_data cp m)) ->
  today w - 1 <= d ->
  load_historical_data w cp sd ed m
    = (Ok (filter_to ed (filter_from sd (_load_local_data cp m))), m).
Proof.
  intros Hin Hd. unfold load_historical_data.
  rewrite (bind_ok _ _ m m (_load_local_data cp m)) by reflexivity.
  assert (empty (_load_local_data cp m) = false) as He
    by (destruct (_load_local_data cp m); [destruct Hin|reflexivity]).
  assert (_need_update w (_load_local_data cp m) = false) as Hn.
  { unfold _need_update. rewrite He. apply Z.ltb_ge.
    pose proof (index_max_ge _ _ Hin). lia. }
  rewrite He, Hn. reflexivity.
Qed.

Lemma drop_duplicated_nonempty df : df <> [] -> drop_duplicated_keep_last df <> [].
Proof.
  intros Hne H. destruct df as [|p rest]; [congruence|].
  assert (In (fst p) (index (drop_duplicated_keep_last (p :: rest)))) as Hin
    by (apply drop_duplicated_index; left; reflexivity).
  rewrite H in Hin. destruct Hin.
Qed.

Lemma length_append (s t : string) :
  String.length (s +:+ t) = (String.length s + String.length t)%nat.
Proof. induction s as [|c s IH]; simpl; [reflexivity|]. rewrite IH. reflexivity. Qed.

Lemma append_inj_r (x y t : string) : x +:+ t = y +:+ t -> x = y.
Proof.
  revert y. induction x as [|c x IH]; intros [|c' y] H; simpl in H.
  - reflexivity.
  - apply (f_equal String.length) in H.
    rewrite !length_append in H. simpl in H. rewrite ?length_append in H. lia.
  - apply (f_equal String.length) in H.
    rewrite !length_append in H. simpl in H. rewrite ?length_append in H. lia.
  - injection H as -> H. rewrite (IH y H). reflexivity.
Qed.

Lemma append_inj_l (t x y : string) : t +:+ x = t +:+ y -> x = y.
Proof.
  induction t as [|c t IH]; simpl; [tauto|]. intros [= H]. apply IH. exact H.
Qed.

Lemma replace_slash_inj (s t : string) :
  occurs "_" s = false -> occurs "_" t = false ->
  replace_slash s = replace_slash t -> s = t.
Proof.
  revert t. induction s as [|c s IH]; intros [|c' t]; simpl; try discriminate.
  - reflexivity.
  - intros Hs Ht. apply orb_false_iff in Hs, Ht.
    destruct Hs as [Hc Hs], Ht as [Hc' Ht]. intros [= Hhead Htail].
    rewrite (IH t Hs Ht Htail). f_equal.
    destruct (Ascii.eqb_spec c "/") as [->|Hn];
      destruct (Ascii.eqb_spec c' "/") as [->|Hn']; try reflexivity.
    + subst c'. rewrite Ascii.eqb_refl in Hc'. discriminate.
    + subst c. rewrite Ascii.eqb_refl in Hc. discriminate.
    + exact Hhead.
Qed.

Lemma replace_slash_idem (s : string) :
  replace_slash (replace_slash s) = replace_slash s.
Proof.
  induction s as [|c s IH]; simpl; [reflexivity|]. rewrite IH.
  destruct (Ascii.eqb_spec c "/") as [->|Hn]; [reflexivity|].
  destruct (Ascii.eqb_spec c "/"); [contradiction|reflexivity].
Qed.

Lemma file_path_inj (dir cp cp' : string) :
  occurs "_" cp = false -> occurs "_" cp' = false ->
  file_path dir cp = file_path dir cp' -> cp = cp'.
Proof.
  intros Hs Ht H. unfold file_path in H.
  apply append_inj_l in H. apply append_inj_l in H. apply append_inj_r in H.
  apply replace_slash_inj; assumption.
Qed.

Lemma load_historical_data_eq (w : World) (cp : string) (sd ed : option Z)
    (m : HistoricalDataManager) :
  let local_data := _load_local_data cp m in
  let m' :=
    if empty local_data || _need_update w local_data
    then snd (update_historical_data w cp m) else m in
  load_historical_data w cp sd ed m
  = (Ok (filter_to ed (filter_from sd (_load_local_data cp m'))), m').
Proof.
  cbv zeta. unfold load_historical_data. unfold mbind, M_bind, gets at 1.
  destruct (empty _ || _need_update w _).
  - rewrite update_historical_data_eq. reflexivity.
  - reflexivity.
Qed.

Lemma rolling_corr_nth (pearson : nat -> list (num * num) -> num)
    (window : nat) (pairs : list (num * num)) (i : nat) :
  (i < length pairs)%nat ->
  nth_error (rolling_corr pearson window pairs) i
  = Some (if (i + 1 <? window)%nat then NaN
          else pearson window (firstn (i + 1) pairs)).
Proof.
  intros Hi. unfold rolling_corr.
  rewrite nth_error_map, nth_error_seq.
  destruct (Nat.ltb_spec i (length pairs)); [reflexivity|lia].
Qed.

Lemma nth_error_last {A : Type} (l : list A) (x : A) :
  nth_error (l ++ [x]) (length l) = Some x.
Proof. rewrite nth_error_app2 by lia. rewrite Nat.sub_diag. reflexivity. Qed.

(** Whatever rows pandas pairs, the series [get_correlation] returns is
    NaN on its first [window - 1] values. *)
Lemma correlation_full_window
    (align : DataFrame -> DataFrame -> list (num * num))
    (pearson : nat -> list (num * num) -> num)
    (w : World) (cp1 cp2 : string) (window : nat) (sd ed : option Z)
    (m : HistoricalDataManager) :
  exists corr m',
    get_correlation align pearson w cp1 cp2 window sd ed m = (Ok corr, m') /\
    (forall i c, nth_error corr i = Some c -> (i + 1 < window)%nat -> c = NaN) /\
    (corr <> [] -> (length corr < window)%nat -> Correlation.latest corr = NaN).
Proof.
  unfold get_correlation.
  destruct (load_historical_data_ok w cp1 sd ed m) as (d1 & m1 & H1).
  destruct (load_historical_data_ok w cp2 sd ed m1) as (d2 & m2 & H2).
  rewrite (bind_ok _ _ _ _ _ H1), (bind_ok _ _ _ _ _ H2).
  do 2 eexists. split; [reflexivity|].
  set (pairs := align d1 d2).
  assert (length (rolling_corr pearson window pairs) = length pairs) as Hlen
    by (unfold rolling_corr; rewrite length_map, length_seq; reflexivity).
  assert (forall i c, nth_error (rolling_corr pearson window pairs) i = Some c ->
                      (i + 1 < window)%nat -> c = NaN) as Hpre.
  { intros i c Hnth Hi.
    assert (i < length pairs)%nat as Hlt
      by (rewrite <- Hlen; apply nth_error_Some; congruence).
    rewrite (rolling_corr_nth _ _ _ _ Hlt) in Hnth.
    destruct (Nat.ltb_spec (i + 1) window); [congruence|lia]. }
  split; [exact Hpre|].
  intros Hne Hshort.
  destruct (exists_last Hne) as (cs & c & E). rewrite E in *.
  rewrite latest_app. apply (Hpre (length cs)).
  - apply nth_error_last.
  - rewrite length_app in Hshort. simpl in Hshort. lia.
Qed.

(** X1.  [update_historical_data] swallows the faults of a refresh: when
    the API raises, or the file cannot be opened for writing, the call
    returns normally and the manager is as it was. *)
Theorem update_survives_faults (w : World) (cp : string)
    (m : HistoricalDataManager) :
  let old := _load_local_data cp m in
  let answer := get_historical_rates w cp (fst (fetch_range w old))
                                     (snd (fetch_range w old)) in
  (exists e, answer = Raise e) \/ write_fails w (file_path (data_dir m) cp) = true ->
  update_historical_data w cp m = (Ok tt, m).
Proof.
  intros old answer H. rewrite update_historical_data_eq. cbv zeta.
  fold old. fold answer.
  destruct H as [[e ->]|Hw]; [reflexivity|].
  destruct answer as [[|p rest]|e]; try reflexivity.
  rewrite Hw. reflexivity.
Qed.

(** X1 at an API that raises over a store of three days. *)
Lemma update_survives_faults_witness :
  update_historical_data (api_down 5) "USD/JPY" cached_three
  = (Ok tt, cached_three).
Proof.
  apply (update_survives_faults (api_down 5) "USD/JPY" cached_three).
  left. exists OtherError. reflexivity.
Defined.

(** X2.  Two instruments whose names hold no underscore never share a
    file: a refresh of one leaves the cached series of the other as it
    was, and writes at most the one file. *)
Theorem update_leaves_other_pairs (w : World) (cp cp' : string)
    (m : HistoricalDataManager) :
  occurs "_" cp = false -> occurs "_" cp' = false -> cp' <> cp ->
  let m' := snd (update_historical_data w cp m) in
  _load_local_data cp' m' = _load_local_data cp' m /\
  (saved m' = saved m \/ saved m' = saved m ++ [file_path (data_dir m) cp]).
Proof.
  intros Hcp Hcp' Hne. cbv zeta. rewrite update_historical_data_eq. cbv zeta.
  simpl snd.
  destruct (get_historical_rates w cp _ _) as [[|p rest]|e];
    try (split; [reflexivity|left; reflexivity]).
  destruct (write_fails w _); [split; [reflexivity|left; reflexivity]|].
  split; [|right; reflexivity].
  unfold _load_local_data. simpl.
  rewrite lookup_insert_ne; [reflexivity|].
  intros H. apply Hne. symmetry. apply (file_path_inj (data_dir m)); assumption.
Qed.

(** X2 at a refresh of USD/JPY seen from EUR/USD. *)
Lemma update_leaves_other_pairs_witness :
  _load_local_data "EUR/USD"
    (snd (update_historical_data (fetch_next 5) "USD/JPY" cached_three))
  = _load_local_data "EUR/USD" cached_three.
Proof.
  apply (update_leaves_other_pairs (fetch_next 5) "USD/JPY" "EUR/USD"
           cached_three).
  - reflexivity.
  - reflexivity.
  - discriminate.
Defined.

(** X3.  When the cache holds a date of yesterday or later,
    [load_historical_data] only reads: it returns the cached series
    filtered to the range and leaves the manager as it was, whatever the
    API would answer. *)
Theorem fresh_cache_is_only_read (w w' : World) (cp : string)
    (sd ed : option Z) (m : HistoricalDataManager) (d : Z) :
  In d (index (_load_local_data cp m)) ->
  today w - 1 <= d ->
  today w' = today w ->
  load_historical_data w cp sd ed m
    = (Ok (filter_to ed (filter_from sd (_load_local_data cp m))), m) /\
  load_historical_data w' cp sd ed m = load_historical_data w cp sd ed m.
Proof.
  intros Hin Hd Ht.
  rewrite (load_fresh w cp sd ed m d Hin Hd).
  split; [reflexivity|]. apply (load_fresh w' cp sd ed m d Hin). lia.
Qed.

(** X3 at a store whose last day is yesterday, read while the API is down. *)
Lemma fresh_cache_is_only_read_witness :
  load_historical_data (api_down 4) "USD/JPY" (Some 2) None cached_three
  = (Ok [point 2 151; point 3 152], cached_three).
Proof.
  apply (fresh_cache_is_only_read (api_down 4) (nothing_new 4) "USD/JPY"
           (Some 2) None cached_three 3).
  - vm_compute. tauto.
  - vm_compute. discriminate.
  - reflexivity.
Defined.

(** X4.  When the cache has one row per date and the API answers within
    the range it was asked, from the day after the last cached date, a
    refresh appends: the saved series is the cache followed by the batch
    (its repeated dates dropped), and it is ascending when the cache and
    the batch are. *)
Theorem refresh_in_range_appends (w : World) (cp : string)
    (m : HistoricalDataManager) (new_data : list PricePoint) :
  let old := _load_local_data cp m in
  old <> [] ->
  List.NoDup (index old) ->
  get_historical_rates w cp (index_max old + 1) (today w) = Ok new_data ->
  new_data <> [] ->
  (forall d, In d (index new_data) -> index_max old + 1 <= d) ->
  write_fails w (file_path (data_dir m) cp) = false ->
  let result := _load_local_data cp (snd (update_historical_data w cp m)) in
  result = old ++ drop_duplicated_keep_last new_data /\
  (StronglySorted Z.lt (index old) ->
   StronglySorted Z.lt (index new_data) ->
   result = old ++ new_data /\ StronglySorted Z.lt (index result)).
Proof.
  intros old Hold Hnd Hapi Hnew Hrange Hw result.
  assert (result = old ++ drop_duplicated_keep_last new_data) as Hres.
  { unfold result. rewrite (update_saves w cp m new_data); fold old.
    - unfold combine. rewrite (proj2 (empty_false old) Hold). cbn [negb].
      rewrite drop_duplicated_app, (drop_duplicated_id old Hnd).
      rewrite filter_all; [reflexivity|].
      intros p Hp. apply negb_true_iff.
      destruct (duplicated_later p new_data) eqn:E; [|reflexivity].
      apply duplicated_later_In in E. apply Hrange in E.
      pose proof (index_max_ge old (fst p) (In_index _ _ Hp)). lia.
    - rewrite (fetch_range_cached w old Hold). exact Hapi.
    - exact Hnew.
    - exact Hw. }
  split; [exact Hres|]. intros Hso Hsn.
  rewrite Hres, (drop_duplicated_id new_data)
    by (apply StronglySorted_NoDup; exact Hsn).
  split; [reflexivity|].
  unfold index. rewrite map_app. apply StronglySorted_app; [exact Hso|exact Hsn|].
  intros x y Hx Hy. specialize (Hrange y Hy).
  pose proof (index_max_ge old x Hx). lia.
Qed.

(** X4 at three cached days and a batch of the two next days. *)
Lemma refresh_in_range_appends_witness :
  let result :=
    _load_local_data "USD/JPY"
      (snd (update_historical_data (fetch_later 5) "USD/JPY" cached_three)) in
  result = [point 1 150; point 2 151; point 3 152; point 4 153; point 5 154]
  /\ StronglySorted Z.lt (index result).
Proof.
  assert (_load_local_data "USD/JPY" cached_three
          = [point 1 150; point 2 151; point 3 152]) as Ho by reflexivity.
  destruct (refresh_in_range_appends (fetch_later 5) "USD/JPY" cached_three
              [point 4 153; point 5 154]) as (_ & Hsorted).
  - rewrite Ho. discriminate.
  - rewrite Ho. simpl. repeat constructor; simpl; intuition lia.
  - reflexivity.
  - discriminate.
  - rewrite Ho. simpl. intros d [<-|[<-|[]]]; vm_compute; discriminate.
  - reflexivity.
  - destruct Hsorted as [Heq Hs].
    + rewrite Ho. simpl. repeat constructor; lia.
    + simpl. repeat constructor; lia.
    + cbv zeta. rewrite Ho in Heq. split; [exact Heq|exact Hs].
Defined.

(** X5.  A refresh that saved a batch reaching yesterday makes the cache
    fresh: the next [load_historical_data] asks the API nothing and
    leaves the manager as it is. *)
Theorem refresh_makes_cache_fresh (w : World) (cp : string)
    (sd ed : option Z) (m : HistoricalDataManager)
    (new_data : list PricePoint) (d : Z) :
  let old := _load_local_data cp m in
  get_historical_rates w cp (fst (fetch_range w old)) (snd (fetch_range w old))
    = Ok new_data ->
  In d (index new_data) ->
  today w - 1 <= d ->
  write_fails w (file_path (data_dir m) cp) = false ->
  let m' := snd (update_historical_data w cp m) in
  _need_update w (_load_local_data cp m') = false /\
  load_historical_data w cp sd ed m'
    = (Ok (filter_to ed (filter_from sd (_load_local_data cp m'))), m').
Proof.
  intros old Hapi Hin Hd Hw m'.
  assert (In d (index (_load_local_data cp m'))) as Hin'.
  { unfold m'. rewrite (update_saves w cp m new_data Hapi); [|destruct new_data; [destruct Hin|discriminate]|exact Hw].
    apply combine_index. exact Hin. }
  split; [|apply (load_fresh w cp sd ed m' d Hin' Hd)].
  unfold _need_update.
  destruct (_load_local_data cp m') eqn:E; [destruct Hin'|]. simpl empty.
  rewrite <- E in *. apply Z.ltb_ge.
  pose proof (index_max_ge _ _ Hin'). lia.
Qed.

(** X5 at a batch that reaches yesterday. *)
Lemma refresh_makes_cache_fresh_witness :
  let m' := snd (update_historical_data (fetch_next 5) "USD/JPY" cached_three) in
  load_historical_data (fetch_next 5) "USD/JPY" None None m'
  = (Ok (_load_local_data "USD/JPY" m'), m').
Proof.
  apply (refresh_makes_cache_fresh (fetch_next 5) "USD/JPY" None None
           cached_three [point 3 (1525 # 10); point 4 153] 4).
  - reflexivity.
  - simpl. tauto.
  - vm_compute. discriminate.
  - reflexivity.
Defined.

(** X6.  Merging is idempotent: merging the same batch a second time
    into the merged series changes nothing. *)
Theorem combine_idempotent old new :
  old <> [] -> combine (combine old new) new = combine old new.
Proof.
  intros Hold.
  assert (combine old new = drop_duplicated_keep_last (old ++ new)) as ->
    by (unfold combine; rewrite (proj2 (empty_false old) Hold); reflexivity).
  assert (old ++ new <> []) as Hne by (destruct old; [congruence|discriminate]).
  pose proof (drop_duplicated_nonempty _ Hne) as Hne'.
  unfold combine. rewrite (proj2 (empty_false _) Hne'). cbn [negb].
  rewrite (drop_duplicated_app (drop_duplicated_keep_last (old ++ new)) new).
  rewrite (drop_duplicated_id (drop_duplicated_keep_last (old ++ new)))
    by apply drop_duplicated_NoDup.
  rewrite (drop_duplicated_app old new) at 1.
  rewrite List.filter_app, filter_filter_same.
  rewrite (filter_none _ (drop_duplicated_keep_last new)).
  - rewrite app_nil_r. symmetry. apply drop_duplicated_app.
  - intros p Hp. apply negb_false_iff. apply duplicated_later_In.
    apply drop_duplicated_index. apply In_index. exact Hp.
Qed.

(** X6 at one cached day and a batch that fetches it again. *)
Lemma combine_idempotent_witness :
  combine (combine [point 1 150] [point 1 151; point 2 152])
          [point 1 151; point 2 152]
  = combine [point 1 150] [point 1 151; point 2 152].
Proof. apply combine_idempotent. discriminate. Defined.

(** X7.  The file name does not tell a slash from an underscore: a pair
    and the same name with its slashes replaced share one file, so a
    refresh of the first is what a load of the second reads. *)
Theorem slash_and_underscore_share_a_file (w : World) (cp : string)
    (m : HistoricalDataManager) :
  file_path (data_dir m) (replace_slash cp) = file_path (data_dir m) cp /\
  _load_local_data (replace_slash cp) (snd (update_historical_data w cp m))
  = _load_local_data cp (snd (update_historical_data w cp m)).
Proof.
  assert (forall dir, file_path dir (replace_slash cp) = file_path dir cp) as H
    by (intros dir; unfold file_path; rewrite replace_slash_idem; reflexivity).
  split; [apply H|]. unfold _load_local_data. rewrite H. reflexivity.
Qed.

(** X8.  A range whose start is after its end gives the empty series, and
    the refresh the load may attempt is the one of any other range. *)
Theorem inverted_range_is_empty (w : World) (cp : string) (s e : Z)
    (m : HistoricalDataManager) :
  e < s ->
  fst (load_historical_data w cp (Some s) (Some e) m) = Ok [] /\
  snd (load_historical_data w cp (Some s) (Some e) m)
  = snd (load_historical_data w cp None None m).
Proof.
  intros Hes. rewrite !load_historical_data_eq. cbv zeta. simpl fst. simpl snd.
  split; [|reflexivity]. f_equal. simpl.
  apply filter_none. intros p Hp. apply List.filter_In in Hp.
  destruct Hp as [_ Hp]. apply Z.leb_le in Hp. apply Z.leb_gt. lia.
Qed.

(** X8 at the range from day 3 to day 2. *)
Lemma inverted_range_is_empty_witness :
  fst (load_historical_data (nothing_new 4) "USD/JPY" (Some 3) (Some 2)
         cached_three) = Ok [].
Proof.
  apply (inverted_range_is_empty (nothing_new 4) "USD/JPY" 3 2 cached_three).
  reflexivity.
Defined.

End HistoricalMore.

(** ** More of the real-time feed *)

Section RealtimeMore.

Import Realtime Examples Scenarios.

(** What a pass of the loop leaves of the manager.  A file that cannot
    be read stays as it is; a file that can be read keeps its records,
    and may get one more, unless the write is cut. *)
Lemma _update_loop_body_state (w : Tick) (m : RealtimeDataManager) :
  let m' := snd (_update_loop_body w m) in
  update_interval m' = update_interval m /\
  currency_pairs m' = currency_pairs m /\
  (forall file, journal m !! file = Some Unreadable ->
                journal m' !! file = Some Unreadable) /\
  ((journal_fails w = true -> journal_cut w = false) ->
   forall file rs,
     read_journal (journal m !! file) = Ok rs ->
     exists added,
       read_journal (journal m' !! file) = Ok (rs ++ added) /\
       (length added <= 1)%nat).
Proof.
  cbv zeta. rewrite _update_loop_body_eq.
  assert (forall j : gmap string JournalFile,
            (forall file rs, read_journal (j !! file) = Ok rs ->
               exists added, read_journal (j !! file) = Ok (rs ++ added) /\
                             (length added <= 1)%nat)) as Hsame.
  { intros j file rs Hr. exists []. rewrite app_nil_r. split; [exact Hr|].
    simpl. lia. }
  destruct (fetch_all w (currency_pairs m) ∅) as [snap|e]; simpl;
    [|split; [reflexivity|]; split; [reflexivity|]; split; [tauto|];
      intros _; apply Hsame].
  rewrite _save_data_to_file_eq. simpl.
  assert (forall (m1 : RealtimeDataManager) (P : RealtimeDataManager -> Prop),
            P (record_sleep 5 (record_sleep (update_interval m) m1)) ->
            P (record_sleep (update_interval m) m1) ->
            P (snd match sleep_error (timer_refuses w) (update_interval m) with
                   | Some _ =>
                       (@Ok unit tt,
                        record_sleep 5 (record_sleep (update_interval m) m1))
                   | None => (Ok tt, record_sleep (update_interval m) m1)
                   end)) as Hcase
    by (intros m1 P H5 H1; destruct (sleep_error _ _); assumption).
  destruct (journal m !! journal_filename w) as [[existing|]|] eqn:E; simpl.
  - destruct (journal_fails w) eqn:Ef; [destruct (journal_cut w) eqn:Ec|];
      apply Hcase; simpl;
      (split; [reflexivity|]; split; [reflexivity|]; split;
       [intros file Hu;
        try (rewrite lookup_insert_ne; [exact Hu|congruence]); exact Hu|]).
    + intros Hno. specialize (Hno eq_refl). discriminate.
    + intros Hno. specialize (Hno eq_refl). discriminate.
    + intros _. apply Hsame.
    + intros _. apply Hsame.
    + intros _ file rs Hr.
      destruct (String.string_dec (journal_filename w) file) as [<-|Hne].
      * rewrite E in Hr. injection Hr as <-. rewrite lookup_insert_eq. simpl.
        eexists. split; [reflexivity|]. simpl. lia.
      * rewrite lookup_insert_ne by exact Hne. apply Hsame. exact Hr.
    + intros _ file rs Hr.
      destruct (String.string_dec (journal_filename w) file) as [<-|Hne].
      * rewrite E in Hr. injection Hr as <-. rewrite lookup_insert_eq. simpl.
        eexists. split; [reflexivity|]. simpl. lia.
      * rewrite lookup_insert_ne by exact Hne. apply Hsame. exact Hr.
  - apply Hcase; simpl;
      (split; [reflexivity|]; split; [reflexivity|]; split; [tauto|];
       intros _; apply Hsame).
  - destruct (journal_fails w) eqn:Ef; [destruct (journal_cut w) eqn:Ec|];
      apply Hcase; simpl;
      (split; [reflexivity|]; split; [reflexivity|]; split;
       [intros file Hu;
        try (rewrite lookup_insert_ne; [exact Hu|congruence]); exact Hu|]).
    + intros Hno. specialize (Hno eq_refl). discriminate.
    + intros Hno. specialize (Hno eq_refl). discriminate.
    + intros _. apply Hsame.
    + intros _. apply Hsame.
    + intros _ file rs Hr.
      destruct (String.string_dec (journal_filename w) file) as [<-|Hne].
      * rewrite E in Hr. injection Hr as <-. rewrite lookup_insert_eq. simpl.
        eexists. split; [reflexivity|]. simpl. lia.
      * rewrite lookup_insert_ne by exact Hne. apply Hsame. exact Hr.
    + intros _ file rs Hr.
      destruct (String.string_dec (journal_filename w) file) as [<-|Hne].
      * rewrite E in Hr. injection Hr as <-. rewrite lookup_insert_eq. simpl.
        eexists. split; [reflexivity|]. simpl. lia.
      * rewrite lookup_insert_ne by exact Hne. apply Hsame. exact Hr.
Qed.

Lemma split_slash_length (s : string) :
  length (split_slash s) = S (count_char "/" s).
Proof.
  induction s as [|c s IH]; simpl; [reflexivity|].
  destruct (Ascii.eqb c "/"); simpl; [rewrite IH; reflexivity|].
  destruct (split_slash s) as [|h r]; simpl in *; [discriminate|exact IH].
Qed.

Lemma split_slash_nonempty (s : string) : split_slash s <> [].
Proof.
  intros H. apply (f_equal (@length string)) in H.
  rewrite split_slash_length in H. discriminate.
Qed.

Lemma split_slash_one (s b : string) : split_slash s = [b] -> s = b.
Proof.
  revert b. induction s as [|c s IH]; intros b; simpl.
  - intros [= <-]. reflexivity.
  - destruct (Ascii.eqb c "/").
    + intros [= _ H]. exfalso. apply (split_slash_nonempty s H).
    + destruct (split_slash s) as [|h r] eqn:E; [intros [= <-]|].
      * exfalso. apply (split_slash_nonempty s E).
      * intros [= <- ->]. f_equal. apply IH. reflexivity.
Qed.

(** Two parts give the name back when joined by the slash. *)
Lemma split_slash_two (s a b : string) :
  split_slash s = [a; b] -> s = a +:+ "/" +:+ b.
Proof.
  revert a. induction s as [|c s IH]; intros a; simpl; [discriminate|].
  destruct (Ascii.eqb_spec c "/") as [->|Hn].
  - intros [= <- Hb]. rewrite (split_slash_one s b Hb). reflexivity.
  - destruct (split_slash s) as [|h r] eqn:E; [discriminate|].
    intros [= <- ->]. rewrite (IH h eq_refl). reflexivity.
Qed.

Lemma fetch_needs_one_slash_raise (w : Tick) (p : string) :
  count_char "/" p <> 1%nat -> fetch w p = Raise ValueError.
Proof.
  pose proof (split_slash_length p) as Hlen. unfold fetch.
  destruct (split_slash p) as [|a [|b [|c r]]] eqn:E; simpl in Hlen;
    try reflexivity.
  intros H. exfalso. apply H. lia.
Qed.

Lemma fetch_all_raises_somewhere (w : Tick) (pairs : list string) (p : string)
    (e : exn) (acc : Snapshot) :
  In p pairs -> fetch w p = Raise e ->
  exists e', fetch_all w pairs acc = Raise e'.
Proof.
  revert acc. induction pairs as [|p0 rest IH]; intros acc; simpl; [tauto|].
  intros [->|Hin] Hp.
  - rewrite Hp. exists e. reflexivity.
  - destruct (fetch w p0) as [[r|]|e0]; [apply IH|apply IH|]; try assumption.
    exists e0. reflexivity.
Qed.

(** X11.  After a tick on which no fetch raises, [get_latest_rate] gives
    for a configured pair the rate fetched on that tick, and [None] for a
    pair whose fetch gave [None] or that is not configured; it changes
    nothing. *)
Theorem rate_read_after_a_tick (w : Tick) (m : RealtimeDataManager) :
  (forall p e, In p (currency_pairs m) -> fetch w p <> Raise e) ->
  exists m',
    _update_data w m = (Ok tt, m') /\
    forall p,
      get_latest_rate p m'
      = (Ok match in_dec String.string_dec p (currency_pairs m), fetch w p with
            | left _, Ok (Some r) => Some r
            | _, _ => None
            end, m').
Proof.
  intros Hok.
  destruct (fetch_all_lookup w (currency_pairs m) ∅ Hok) as (snap & Hs & Hl).
  rewrite _update_data_eq, Hs.
  pose proof (_save_data_to_file_frame w snap (set_latest_data snap m))
    as (_ & _ & Hpub & _).
  exists (snd (_save_data_to_file w snap (set_latest_data snap m))).
  split; [apply surjective_pairing_ok, _save_data_to_file_ok|]. intros p.
  unfold get_latest_rate, gets. f_equal. f_equal.
  cbv zeta in Hpub. rewrite Hpub. simpl.
  rewrite Hl, lookup_empty.
  destruct (in_dec String.string_dec p (currency_pairs m));
    destruct (fetch w p) as [[r|]|e]; reflexivity.
Qed.

(** X11 at a tick where only EUR/USD answers, after a snapshot with GBP/USD. *)
Lemma rate_read_after_a_tick_witness :
  exists m',
    _update_data tick_eur_only feed_with_gbp = (Ok tt, m') /\
    get_latest_rate "EUR/USD" m' = (Ok (Some (Num.of_Q (11 # 10))), m') /\
    get_latest_rate "GBP/USD" m' = (Ok None, m').
Proof.
  destruct (rate_read_after_a_tick tick_eur_only feed_with_gbp)
    as (m' & Hrun & Hread).
  - intros p e Hin. simpl in Hin.
    repeat (destruct Hin as [<-|Hin]; [vm_compute; discriminate|]).
    contradiction.
  - exists m'. split; [exact Hrun|]. split; rewrite Hread; reflexivity.
Defined.

(** X12.  On a tick where no fetch raises and no input or output error
    occurs, the file of the day gets exactly one more record, which holds
    the snapshot published on that tick, unless it holds something that
    cannot be read, and then it is left as it is; the other files are as
    they were. *)
Theorem journal_gets_the_snapshot (w : Tick) (m : RealtimeDataManager) :
  (forall p e, In p (currency_pairs m) -> fetch w p <> Raise e) ->
  journal_fails w = false ->
  exists m',
    _update_data w m = (Ok tt, m') /\
    match read_journal (journal m !! journal_filename w) with
    | Ok existing_data =>
        journal m' !! journal_filename w
        = Some (Records (existing_data
                         ++ [mkJournalRecord (journal_now w) (latest_data m')]))
    | Raise _ => journal m' !! journal_filename w = Some Unreadable
    end /\
    forall file, file <> journal_filename w ->
                 journal m' !! file = journal m !! file.
Proof.
  intros Hok Hj.
  destruct (fetch_all_lookup w (currency_pairs m) ∅ Hok) as (snap & Hs & _).
  rewrite _update_data_eq, Hs, _save_data_to_file_eq, Hj.
  simpl.
  destruct (journal m !! journal_filename w) as [[existing|]|] eqn:E; simpl;
    (eexists; split; [reflexivity|]; simpl; split;
     [try apply lookup_insert_eq; try exact E
     |intros file Hne; try apply lookup_insert_ne; congruence]).
Qed.

(** X12 at the first tick of a day. *)
Lemma journal_gets_the_snapshot_witness :
  exists m',
    _update_data tick_eur_only feed_with_gbp = (Ok tt, m') /\
    journal m' !! "data/realtime_20240102.json"
    = Some (Records [mkJournalRecord "2024-01-02T10:00:01" (latest_data m')]).
Proof.
  destruct (journal_gets_the_snapshot tick_eur_only feed_with_gbp)
    as (m' & Hrun & Hfile & _).
  - intros p e Hin. simpl in Hin.
    repeat (destruct Hin as [<-|Hin]; [vm_compute; discriminate|]).
    contradiction.
  - reflexivity.
  - exists m'. split; [exact Hrun|]. exact Hfile.
Defined.

(** X13.  Whatever happens on the ticks, the update loop returns and
    keeps the interval and the list of the pairs.  A journal file that
    cannot be read is never written again.  And as long as no write is
    cut after the file was opened, every journal file keeps all its
    records: it only gets more, at most one for each tick. *)
Theorem journal_only_grows (ticks : list Tick) (m : RealtimeDataManager) :
  exists m',
    _update_loop ticks m = (Ok tt, m') /\
    update_interval m' = update_interval m /\
    currency_pairs m' = currency_pairs m /\
    (forall file, journal m !! file = Some Unreadable ->
                  journal m' !! file = Some Unreadable) /\
    (Forall (fun w => journal_fails w = true -> journal_cut w = false) ticks ->
     forall file rs,
       read_journal (journal m !! file) = Ok rs ->
       exists added,
         read_journal (journal m' !! file) = Ok (rs ++ added) /\
         (length added <= length ticks)%nat).
Proof.
  assert (forall m0 : RealtimeDataManager,
            forall file rs, read_journal (journal m0 !! file) = Ok rs ->
               exists added, read_journal (journal m0 !! file) = Ok (rs ++ added) /\
                             (length added <= 0)%nat) as Hsame.
  { intros m0 file rs Hr. exists []. rewrite app_nil_r. split; [exact Hr|].
    simpl. lia. }
  revert m. induction ticks as [|w rest IH]; intros m.
  - exists m. simpl. repeat split; try tauto. intros _. apply Hsame.
  - simpl. destruct (stop_flag_is_set w).
    + exists m. repeat split; try tauto. intros _ file rs Hr.
      destruct (Hsame m file rs Hr) as (added & Ha & Hl).
      exists added. split; [exact Ha|]. lia.
    + unfold mbind, M_bind.
      pose proof (_update_loop_body_ok w m) as Hok.
      pose proof (_update_loop_body_state w m) as (Hi & Hp & Hu & Hj).
      destruct (_update_loop_body w m) as [r m1]. simpl in Hok, Hi, Hp, Hu, Hj.
      subst r.
      destruct (IH m1) as (m' & Hrun & Hi' & Hp' & Hu' & Hj').
      exists m'. split; [exact Hrun|].
      split; [congruence|]. split; [congruence|].
      split; [intros file Hf; apply Hu', Hu, Hf|].
      intros Hall file rs Hr.
      inversion Hall as [|? ? Hw Hrest]; subst.
      destruct (Hj Hw file rs Hr) as (added1 & Ha1 & Hl1).
      destruct (Hj' Hrest file _ Ha1) as (added & Ha & Hl).
      exists (added1 ++ added). rewrite app_assoc. split; [exact Ha|].
      rewrite length_app. lia.
Qed.

(** X13 at a tick that journals, then a tick whose journal fails before
    the file is opened for writing. *)
Lemma journal_only_grows_witness :
  exists m' added,
    _update_loop [tick_eur_only; tick_journal_fails] feed_with_gbp = (Ok tt, m') /\
    read_journal (journal m' !! "data/realtime_20240102.json") = Ok added /\
    (length added <= 2)%nat.
Proof.
  destruct (journal_only_grows [tick_eur_only; tick_journal_fails] feed_with_gbp)
    as (m' & Hrun & _ & _ & _ & Hgrow).
  destruct (Hgrow (ltac:(repeat constructor; discriminate))
              "data/realtime_20240102.json" [] eq_refl)
    as (added & Ha & Hl).
  exists m', added. split; [exact Hrun|]. split; [exact Ha|exact Hl].
Defined.

(** X14.  The loop makes no pass once it has found the stop flag set:
    the ticks that follow change nothing. *)
Theorem loop_stops_at_the_flag (before after : list Tick) (w : Tick)
    (m : RealtimeDataManager) :
  stop_flag_is_set w = true ->
  _update_loop (before ++ w :: after) m = _update_loop before m.
Proof.
  intros Hw. revert m. induction before as [|t rest IH]; intros m; simpl.
  - rewrite Hw. reflexivity.
  - destruct (stop_flag_is_set t); [reflexivity|].
    unfold mbind, M_bind.
    destruct (_update_loop_body t m) as [[[]|e] m1]; [apply IH|reflexivity].
Qed.

(** X14 at one pass, a set flag, and a tick that would raise. *)
Lemma loop_stops_at_the_flag_witness :
  _update_loop ([tick_eur_only] ++ tick_stop :: [tick_raises]) feed_with_gbp
  = _update_loop [tick_eur_only] feed_with_gbp.
Proof. apply loop_stops_at_the_flag. reflexivity. Defined.

(** X15.  A pair is fetched only if its name has exactly one slash: then
    the name is its two halves joined by the slash and the connector is
    asked for them; with no slash or several, the fetch raises
    [ValueError]. *)
Theorem fetch_needs_one_slash (w : Tick) (p : string) :
  (count_char "/" p <> 1%nat -> fetch w p = Raise ValueError) /\
  (count_char "/" p = 1%nat ->
   exists a b, p = a +:+ "/" +:+ b /\ fetch w p = get_exchange_rate w a b).
Proof.
  split; [apply fetch_needs_one_slash_raise|].
  pose proof (split_slash_length p) as Hlen. unfold fetch.
  destruct (split_slash p) as [|a [|b [|c r]]] eqn:E; simpl in Hlen;
    intros H; rewrite H in Hlen; try discriminate.
  exists a, b. split; [apply split_slash_two; exact E|reflexivity].
Qed.

(** X15 at EURUSD and at EUR/USD. *)
Lemma fetch_needs_one_slash_witness :
  fetch tick_eur_only "EURUSD" = Raise ValueError /\
  exists a b, "EUR/USD" = a +:+ "/" +:+ b /\
              fetch tick_eur_only "EUR/USD" = get_exchange_rate tick_eur_only a b.
Proof.
  split.
  - apply (proj1 (fetch_needs_one_slash tick_eur_only "EURUSD")). discriminate.
  - apply (proj2 (fetch_needs_one_slash tick_eur_only "EUR/USD")). reflexivity.
Defined.

(** X16.  One configured pair without exactly one slash freezes the feed:
    every pass raises before anything is published, so the snapshot and
    the journal never change and every pass ends in the 5-second sleep. *)
Theorem malformed_pair_freezes_the_feed (ticks : list Tick)
    (m : RealtimeDataManager) (p : string) :
  In p (currency_pairs m) ->
  count_char "/" p <> 1%nat ->
  Forall (fun w => stop_flag_is_set w = false) ticks ->
  exists m',
    _update_loop ticks m = (Ok tt, m') /\
    latest_data m' = latest_data m /\
    journal m' = journal m /\
    slept m' = slept m ++ repeat 5 (length ticks).
Proof.
  intros Hin Hbad Hall. revert m Hin.
  induction Hall as [|w rest Hw Hrest IH]; intros m Hin.
  - exists m. simpl. rewrite app_nil_r. auto.
  - simpl. rewrite Hw. unfold mbind, M_bind.
    rewrite _update_loop_body_eq.
    destruct (fetch_all_raises_somewhere w (currency_pairs m) p ValueError ∅ Hin)
      as (e' & ->); [apply fetch_needs_one_slash_raise; exact Hbad|].
    destruct (IH (record_sleep 5 m) Hin) as (m' & Hrun & Hl & Hj & Hs).
    exists m'. rewrite Hrun. split; [reflexivity|].
    split; [exact Hl|]. split; [exact Hj|].
    rewrite Hs. simpl. rewrite <- app_assoc. reflexivity.
Qed.

(** X16 at a feed that lists EURUSD, over two ticks. *)
Lemma malformed_pair_freezes_the_feed_witness :
  exists m',
    _update_loop [tick_eur_only; tick_eur_only] feed_with_bad_pair = (Ok tt, m') /\
    latest_data m' = ∅ /\ slept m' = [5; 5].
Proof.
  destruct (malformed_pair_freezes_the_feed [tick_eur_only; tick_eur_only]
              feed_with_bad_pair "EURUSD")
    as (m' & Hrun & Hl & _ & Hs).
  - simpl. tauto.
  - discriminate.
  - repeat constructor.
  - exists m'. split; [exact Hrun|]. split; [exact Hl|exact Hs].
Defined.

End RealtimeMore.

(** ** More of the threshold strategy *)

Section SimpleMore.

Import Simple Examples Scenarios.

Lemma make_decision_next (market_data : Snapshot) (s : SimpleStrategy)
    (q : Quote) (prev : num) :
  market_data !! currency_pair s = Some q ->
  previous_rate s = Some prev ->
  Num.is_zero prev = false ->
  make_decision market_data s
  = (Ok (decide_change s (rate q)
           (Num.mul (Num.div (Num.sub (rate q) prev) prev) (Num.of_Z 100))),
     set_previous_rate (rate q) s).
Proof.
  intros Hq Hp Hnz. unfold make_decision. unfold_monad. simpl.
  rewrite Hq, Hp. unfold percent_change, Num.py_div. rewrite Hnz.
  reflexivity.
Qed.

Lemma make_decision_zero (market_data : Snapshot) (s : SimpleStrategy)
    (q : Quote) (prev : num) :
  market_data !! currency_pair s = Some q ->
  previous_rate s = Some prev ->
  Num.is_zero prev = true ->
  make_decision market_data s = (Raise ZeroDivisionError, s).
Proof.
  intros Hq Hp Hz. unfold make_decision. unfold_monad. simpl.
  rewrite Hq, Hp. unfold percent_change, Num.py_div. rewrite Hz.
  reflexivity.
Qed.

(** X17.  [set_parameters] changes the pair and keeps the stored rate: the
    first decision on the new instrument is computed against the last
    rate of the old one, from the float
    [((rate - previous) / previous) * 100]. *)
Theorem new_pair_is_compared_with_the_old_rate (s : SimpleStrategy)
    (c : ascii) (t : string) (new_threshold : option num)
    (new_amount : option Q)
    (market_data : Snapshot) (q : Quote) (prev : num) :
  previous_rate s = Some prev ->
  Num.is_zero prev = false ->
  market_data !! String c t = Some q ->
  let s' := set_parameters (Some (String c t)) new_threshold new_amount s in
  currency_pair s' = String c t /\
  previous_rate s' = Some prev /\
  make_decision market_data s'
  = (Ok (decide_change s' (rate q)
           (Num.mul (Num.div (Num.sub (rate q) prev) prev) (Num.of_Z 100))),
     set_previous_rate (rate q) s').
Proof.
  intros Hp Hnz Hq s'. split; [reflexivity|]. split; [exact Hp|].
  apply make_decision_next; [exact Hq|exact Hp|exact Hnz].
Qed.

(** X17 at a strategy that has seen USD/JPY at 150 and is pointed at
    EUR/USD, quoted 1.1: a fall of more than 99%, a buy. *)
Lemma new_pair_is_compared_with_the_old_rate_witness :
  exists why s',
    make_decision (quote_of "EUR/USD" (11 # 10))
      (set_parameters (Some "EUR/USD") None None (watching "USD/JPY" 2 150))
    = (Ok (ShouldTrade
             (mkTrade buy "EUR/USD" 1000 (Num.of_Q (11 # 10)) why)), s').
Proof.
  destruct (new_pair_is_compared_with_the_old_rate (watching "USD/JPY" 2 150)
              "E"%char "UR/USD" None None (quote_of "EUR/USD" (11 # 10))
              (mkQuote (Num.of_Q (11 # 10)) "2024-01-02T10:00:00")
              (Num.of_Q 150))
    as (_ & _ & Hrun).
  - reflexivity.
  - reflexivity.
  - reflexivity.
  - do 2 eexists. rewrite Hrun. vm_compute. reflexivity.
Defined.

(** X18.  Once the stored rate is zero it stays: every later call whose
    snapshot has the instrument raises [ZeroDivisionError], the others
    return no trade, and the state never changes. *)
Theorem zero_rate_is_never_left (s : SimpleStrategy) (prev : num)
    (snapshots : list Snapshot) :
  previous_rate s = Some prev ->
  Num.is_zero prev = true ->
  feed snapshots s
  = (map (fun md : Snapshot =>
            match md !! currency_pair s with
            | Some _ => Raise ZeroDivisionError
            | None => Ok NoTrade
            end) snapshots,
     s).
Proof.
  intros Hp Hz. induction snapshots as [|md rest IH]; simpl; [reflexivity|].
  destruct (md !! currency_pair s) as [q|] eqn:E.
  - rewrite (make_decision_zero md s q prev E Hp Hz), IH. reflexivity.
  - rewrite (make_decision_absent md s E), IH. reflexivity.
Qed.

(** X18 at a stored rate of 0 and two snapshots. *)
Lemma zero_rate_is_never_left_witness :
  feed [quote_of "USD/JPY" 150; quote_of "EUR/USD" 1] (watching "USD/JPY" 2 0)
  = ([Raise ZeroDivisionError; Ok NoTrade], watching "USD/JPY" 2 0).
Proof.
  apply (zero_rate_is_never_left (watching "USD/JPY" 2 0) (Num.of_Q 0)
           [quote_of "USD/JPY" 150; quote_of "EUR/USD" 1]).
  - reflexivity.
  - reflexivity.
Defined.

(** X19.  Along a feed of snapshots that all quote the instrument at a
    rate that is not zero, no call raises and the stored rate ends as the
    rate of the last snapshot, whether trades fired or not. *)
Theorem stored_rate_is_the_last_seen (snapshots : list Snapshot)
    (s : SimpleStrategy) (last : Snapshot) (q : Quote) :
  match previous_rate s with
  | Some prev => Num.is_zero prev = false
  | None => True
  end ->
  Forall (fun md : Snapshot =>
            exists q', md !! currency_pair s = Some q' /\
                       Num.is_zero (rate q') = false)
         (snapshots ++ [last]) ->
  last !! currency_pair s = Some q ->
  let '(results, s') := feed (snapshots ++ [last]) s in
  previous_rate s' = Some (rate q) /\
  currency_pair s' = currency_pair s /\
  Forall (fun r => exists d, r = Ok d) results.
Proof.
  revert s. induction snapshots as [|md rest IH]; intros s Hprev Hall Hq.
  - simpl. inversion Hall as [|? ? (q' & Hq' & Hnz) _]; subst.
    destruct (previous_rate s) as [prev|] eqn:Ep.
    + rewrite (make_decision_next last s q prev Hq Ep Hprev). simpl.
      repeat split. repeat constructor. eexists. reflexivity.
    + rewrite (make_decision_first last s q Hq Ep). simpl.
      repeat split. repeat constructor. eexists. reflexivity.
  - simpl. inversion Hall as [|? ? (q' & Hq' & Hnz) Hrest]; subst.
    assert (exists d, make_decision md s = (Ok d, set_previous_rate (rate q') s))
      as (d & Hd).
    { destruct (previous_rate s) as [prev|] eqn:Ep.
      - eexists. apply (make_decision_next md s q' prev Hq' Ep Hprev).
      - eexists. apply (make_decision_first md s q' Hq' Ep). }
    rewrite Hd.
    specialize (IH (set_previous_rate (rate q') s) Hnz Hrest Hq).
    destruct (feed (rest ++ [last]) (set_previous_rate (rate q') s))
      as [results s'].
    destruct IH as (H1 & H2 & H3). split; [exact H1|]. split; [exact H2|].
    constructor; [eexists; reflexivity|exact H3].
Qed.

(** X19 at 150 then 145.5 fed to a fresh strategy. *)
Lemma stored_rate_is_the_last_seen_witness :
  previous_rate
    (snd (feed ([quote_of "USD/JPY" 150] ++ [quote_of "USD/JPY" (1455 # 10)])
               (init "USD/JPY" (Num.of_Q 2) 1000)))
  = Some (Num.of_Q (1455 # 10)).
Proof.
  pose proof (stored_rate_is_the_last_seen [quote_of "USD/JPY" 150]
                (init "USD/JPY" (Num.of_Q 2) 1000)
                (quote_of "USD/JPY" (1455 # 10))
                (mkQuote (Num.of_Q (1455 # 10)) "2024-01-02T10:00:00")) as H.
  destruct (feed ([quote_of "USD/JPY" 150] ++ [quote_of "USD/JPY" (1455 # 10)])
                 (init "USD/JPY" (Num.of_Q 2) 1000)) as [results s'].
  apply H.
  - exact I.
  - repeat constructor; eexists; (split; reflexivity).
  - reflexivity.
Defined.

End SimpleMore.

(** ** More of the divergence strategy *)

Section CorrelationMore.

Import Historical Correlation Examples Scenarios.
Variable align : DataFrame -> DataFrame -> list (num * num).
Variable pearson : nat -> list (num * num) -> num.
Variable w : World.

Lemma all_present_false (market_data : Snapshot) (pairs : list string) (p : string) :
  In p pairs -> market_data !! p = None -> all_present market_data pairs = false.
Proof.
  intros Hin Hp. unfold all_present. apply not_true_is_false. intros H.
  rewrite forallb_forall in H. specialize (H p Hin).
  apply bool_decide_eq_true in H. rewrite Hp in H. destruct H. discriminate.
Qed.

Lemma make_decision_missing (market_data : Snapshot) (s : CorrelationStrategy)
    (p : string) :
  p = primary_pair s \/ In p (secondary_pairs s) ->
  market_data !! p = None ->
  make_decision align pearson w market_data s = (Ok NoTrade, s).
Proof.
  intros Hp Hnone. unfold make_decision.
  rewrite (bind_ok _ _ s s s) by reflexivity.
  destruct (bool_decide (is_Some (market_data !! primary_pair s))) eqn:E;
    [|reflexivity].
  destruct Hp as [->|Hin].
  - apply bool_decide_eq_true in E. rewrite Hnone in E. destruct E. discriminate.
  - rewrite (all_present_false market_data _ p Hin Hnone). reflexivity.
Qed.

Lemma fetch_all_keys (t : Realtime.Tick) (pairs : list string)
    (acc snapshot : Snapshot) (p : string) :
  Realtime.fetch_all t pairs acc = Ok snapshot ->
  is_Some (snapshot !! p) -> In p pairs \/ is_Some (acc !! p).
Proof.
  revert acc. induction pairs as [|p0 rest IH]; intros acc; simpl.
  - intros [= ->]. auto.
  - destruct (Realtime.fetch t p0) as [[r|]|e]; [| |discriminate].
    + intros H Hs. destruct (IH _ H Hs) as [Hin|Hacc]; [auto|].
      destruct (String.string_dec p0 p) as [->|Hne]; [auto|].
      rewrite lookup_insert_ne in Hacc by exact Hne. auto.
    + intros H Hs. destruct (IH _ H Hs) as [Hin|Hacc]; auto.
Qed.



(** X21.  When the snapshot lacks the primary pair or one of the
    secondary pairs, [make_decision] returns no trade and touches
    nothing: no history is loaded, no correlation is recorded. *)
Theorem missing_pair_means_no_trade (market_data : Snapshot)
    (s : CorrelationStrategy) (p : string) :
  p = primary_pair s \/ In p (secondary_pairs s) ->
  market_data !! p = None ->
  make_decision align pearson w market_data s = (Ok NoTrade, s).
Proof. apply make_decision_missing. Qed.

(** X22.  A strategy one of whose pairs is not among the pairs the feed is
    configured with never trades on the snapshots of that feed, and never
    loads any history. *)
Theorem pair_outside_the_feed_means_no_trade (t : Realtime.Tick)
    (m m' : Realtime.RealtimeDataManager) (s : CorrelationStrategy) (p : string) :
  Realtime._update_data t m = (Ok tt, m') ->
  p = primary_pair s \/ In p (secondary_pairs s) ->
  ~ In p (Realtime.currency_pairs m) ->
  exists market_data,
    Realtime.get_latest_data m' = (Ok market_data, m') /\
    make_decision align pearson w market_data s = (Ok NoTrade, s).
Proof.
  intros Hrun Hp Hout. exists (Realtime.latest_data m').
  split; [reflexivity|]. apply (make_decision_missing _ s p Hp).
  rewrite _update_data_eq in Hrun.
  destruct (Realtime.fetch_all t (Realtime.currency_pairs m) ∅) as [snap|e] eqn:E;
    [|discriminate].
  pose proof (_save_data_to_file_frame t snap (Realtime.set_latest_data snap m))
    as (_ & _ & Hpub & _).
  cbv zeta in Hpub. rewrite Hrun in Hpub. simpl in Hpub. rewrite Hpub.
  destruct (snap !! p) eqn:Es; [|reflexivity].
  destruct (fetch_all_keys t _ ∅ snap p E) as [Hin|[x Hx]].
  - rewrite Es. eexists. reflexivity.
  - contradiction.
  - rewrite lookup_empty in Hx. discriminate.
Qed.

(** X23.  When the primary pair has no history in the lookback range,
    the decision is no trade, whatever the quotes and the secondaries. *)
Theorem no_primary_history_means_no_trade (market_data : Snapshot)
    (s : CorrelationStrategy) (h : HistoricalDataManager) :
  is_Some (market_data !! primary_pair s) ->
  Forall (fun p => is_Some (market_data !! p)) (secondary_pairs s) ->
  load_historical_data w (primary_pair s)
    (Some (today w - Z.of_nat (correlation_window s * 2))) (Some (today w))
    (historical_data s) = (Ok [], h) ->
  make_decision align pearson w market_data s = (Ok NoTrade, set_historical_data h s).
Proof.
  intros [q Hq] Hall Hload. apply all_present_Forall in Hall.
  assert (_calculate_divergence align pearson w market_data s
          = (Ok [], set_historical_data h s)) as Hcalc.
  { unfold _calculate_divergence.
    rewrite (bind_ok _ _ s s s) by reflexivity.
    rewrite (bind_ok _ _ _ _ _ (on_historical_data_ok _ _ _ _ Hload)).
    reflexivity. }
  rewrite (make_decision_eq align pearson w market_data s _ q [] Hq Hall Hcalc).
  reflexivity.
Qed.



(** X26.  A secondary with fewer aligned rows than the window (and at
    least one) is recorded with a NaN correlation and a NaN divergence. *)
Theorem short_history_gives_no_divergence
    (market_data : Snapshot) (sd ed : Z)
    (primary_data secondary_data : DataFrame) (sec : string) (data : Dict)
    (s s1 s2 : CorrelationStrategy) (corr : list num)
    (pcur scur pprev sprev : num) :
  on_historical_data (load_historical_data w sec (Some sd) (Some ed)) s
    = (Ok secondary_data, s1) ->
  secondary_data <> [] ->
  on_historical_data
    (get_correlation align pearson w (primary_pair s) sec (correlation_window s)
                     (Some sd) (Some ed)) s1
    = (Ok corr, s2) ->
  corr <> [] ->
  (length corr < correlation_window s)%nat ->
  rate_of market_data (primary_pair s) = Ok pcur ->
  rate_of market_data sec = Ok scur ->
  prev_close primary_data = Ok pprev ->
  prev_close secondary_data = Ok sprev ->
  exists e,
    calculate_one align pearson w market_data sd ed primary_data sec data s
      = (Ok (dict_set sec e data), set_historical_correlation sec NaN s2) /\
    correlation e = NaN /\ divergence e = NaN.
Proof.
  intros Hload Hne Hcorr Hc Hshort Hp Hs Hpp Hsp.
  assert (latest corr = NaN) as Hlatest.
  { unfold on_historical_data in Hcorr.
    destruct (correlation_full_window align pearson w (primary_pair s) sec
                (correlation_window s) (Some sd) (Some ed) (historical_data s1))
      as (corr' & m' & Hget & _ & Hlast).
    rewrite Hget in Hcorr. injection Hcorr as <- _. apply Hlast; assumption. }
  unfold calculate_one.
  rewrite (bind_ok _ _ s s s) by reflexivity.
  rewrite (bind_ok _ _ _ _ _ Hload).
  apply empty_false in Hne. rewrite Hne.
  rewrite (bind_ok _ _ _ _ _ Hcorr).
  unfold_monad. simpl. rewrite Hp, Hs, Hpp, Hsp, Hlatest.
  eexists. split; [reflexivity|]. simpl. split; [reflexivity|].
  rewrite mul_NaN. apply sub_NaN.
Qed.



End CorrelationMore.

Section CorrelationWitnesses.

Import Historical Correlation Examples Scenarios.

(** X21 at a snapshot without GBP/USD. *)
Lemma missing_pair_means_no_trade_witness :
  make_decision align_dates pearson_of_two (nothing_new 100) (quote_of "EUR/USD" 1)
                (eur_vs_gbp 2 (1 # 100))
  = (Ok NoTrade, eur_vs_gbp 2 (1 # 100)).
Proof.
  apply (missing_pair_means_no_trade align_dates pearson_of_two (nothing_new 100)
           (quote_of "EUR/USD" 1) (eur_vs_gbp 2 (1 # 100)) "GBP/USD").
  - right. left. reflexivity.
  - reflexivity.
Defined.

(** X22 at the two defaults: [CorrelationStrategy()] compares with AUD/USD,
    which [RealtimeDataManager] does not poll. *)
Lemma pair_outside_the_feed_means_no_trade_witness :
  exists m' market_data,
    Realtime._update_data tick_eur_only feed_with_gbp = (Ok tt, m') /\
    Realtime.get_latest_data m' = (Ok market_data, m') /\
    make_decision align_dates pearson_of_two (nothing_new 100) market_data default_strategy
    = (Ok NoTrade, default_strategy).
Proof.
  destruct (Realtime._update_data tick_eur_only feed_with_gbp) as [r m'] eqn:E.
  assert (r = Ok tt) as -> by (vm_compute in E; congruence).
  destruct (pair_outside_the_feed_means_no_trade align_dates pearson_of_two
              (nothing_new 100) tick_eur_only feed_with_gbp m'
              default_strategy "AUD/USD" E)
    as (market_data & Hread & Hrun).
  - right. right. left. reflexivity.
  - simpl. intros H. repeat (destruct H as [H|H]; [discriminate|]). exact H.
  - exists m', market_data. split; [reflexivity|]. split; assumption.
Defined.

(** X23 at an empty directory and an API that finds nothing. *)
Lemma no_primary_history_means_no_trade_witness :
  make_decision align_dates pearson_of_two (nothing_new 100)
                (market (1122 # 1000) (12375 # 10000)) without_history
  = (Ok NoTrade, without_history).
Proof.
  apply (no_primary_history_means_no_trade align_dates pearson_of_two (nothing_new 100)
           (market (1122 # 1000) (12375 # 10000)) without_history
           (historical_data without_history)).
  - eexists. reflexivity.
  - repeat constructor. eexists. reflexivity.
  - reflexivity.
Defined.



(** X26 at two days of history and a window of 30. *)
Lemma short_history_gives_no_divergence_witness :
  exists e s',
    calculate_one align_dates pearson_of_two (nothing_new 100)
      (market (1122 # 1000) (12375 # 10000)) 40 100
      [point 99 1; point 100 (11 # 10)] "GBP/USD" [] (eur_vs_gbp 30 (1 # 100))
    = (Ok [("GBP/USD", e)], s') /\
    correlation e = NaN /\ divergence e = NaN.
Proof.
  destruct (short_history_gives_no_divergence align_dates pearson_of_two (nothing_new 100)
              (market (1122 # 1000) (12375 # 10000)) 40 100
              [point 99 1; point 100 (11 # 10)]
              [point 99 (12 # 10); point 100 (125 # 100)] "GBP/USD" []
              (eur_vs_gbp 30 (1 # 100)) (eur_vs_gbp 30 (1 # 100))
              (eur_vs_gbp 30 (1 # 100)) [NaN; NaN]
              (Num.of_Q (1122 # 1000)) (Num.of_Q (12375 # 10000))
              (Num.of_Q 1) (Num.of_Q (12 # 10)))
    as (e & Hrun & Hc & Hd).
  - reflexivity.
  - discriminate.
  - reflexivity.
  - discriminate.
  - simpl. lia.
  - reflexivity.
  - reflexivity.
  - reflexivity.
  - reflexivity.
  - exists e. eexists. split; [exact Hrun|]. split; assumption.
Defined.


End CorrelationWitnesses.

(** ** More of the decision loop *)

Section BotMore.

Import Bot.
Context {D S : Type} `{DataManager D} `{Strategy S}.

Lemma check_and_execute_mode (w : Cycle) (mode : string) (b : TradingBot D S) :
  check_and_execute w (set_trade_mode mode b)
  = (fst (check_and_execute w b), set_trade_mode mode (snd (check_and_execute w b))).
Proof.
  unfold check_and_execute, on_data_manager, on_strategy, _execute_trade,
    append_history.
  unfold_monad. simpl.
  destruct (get_latest_data (data_manager b)) as [[current_data|e] d']; simpl;
    [|reflexivity].
  destruct (make_decision current_data (strategy b)) as [[[|t]|e] s']; simpl;
    try reflexivity.
  destruct (print_fails w); reflexivity.
Qed.

Lemma check_and_execute_history (w : Cycle) (b : TradingBot D S) :
  exists ok b',
    check_and_execute w b = (Ok ok, b') /\
    trade_mode b' = trade_mode b /\
    is_running b' = is_running b /\
    (trade_history b' = trade_history b \/
     exists r, trade_history b' = trade_history b ++ [r] /\
               record_timestamp r = now w).
Proof.
  unfold check_and_execute, on_data_manager, on_strategy, _execute_trade,
    append_history.
  unfold_monad.
  destruct (get_latest_data (data_manager b)) as [[current_data|e] d']; simpl.
  - destruct (make_decision current_data (strategy b)) as [[[|t]|e] s']; simpl.
    + do 2 eexists. split; [reflexivity|]. simpl. auto.
    + destruct (print_fails w); simpl; do 2 eexists;
        (split; [reflexivity|]); simpl; repeat split; right; eexists;
        split; reflexivity.
    + do 2 eexists. split; [reflexivity|]. simpl. auto.
  - do 2 eexists. split; [reflexivity|]. simpl. auto.
Qed.

(** The pause reads and changes nothing of the bot. *)
Lemma pause_eq (check_interval : result Z) (timer_refuses : Z -> option exn)
    (b : TradingBot D S) :
  pause check_interval timer_refuses b
  = (match check_interval with
     | Ok seconds =>
         match sleep_error timer_refuses seconds with
         | Some e => Raise e
         | None => Ok tt
         end
     | Raise e => Raise e
     end, b).
Proof.
  unfold pause. unfold_monad. destruct check_interval as [seconds|e];
    [|reflexivity].
  destruct (sleep_error timer_refuses seconds); reflexivity.
Qed.

(** X27.  The trade mode changes nothing of what the bot does: in any
    mode the cycles return the same results and leave the same history,
    data manager and strategy; no gateway is called in live mode. *)
Theorem trade_mode_changes_nothing (check_interval : result Z)
    (timer_refuses : Z -> option exn) (cycles : list Cycle) (mode : string)
    (b : TradingBot D S) :
  main_loop check_interval timer_refuses cycles (set_trade_mode mode b)
  = (fst (main_loop check_interval timer_refuses cycles b),
     set_trade_mode mode (snd (main_loop check_interval timer_refuses cycles b))).
Proof.
  revert b. induction cycles as [|w rest IH]; intros b; simpl; [reflexivity|].
  unfold mbind, M_bind. rewrite check_and_execute_mode.
  destruct (check_and_execute_history w b) as (ok & b1 & -> & _). simpl.
  rewrite !pause_eq.
  destruct check_interval as [seconds|e]; [|reflexivity].
  destruct (sleep_error timer_refuses seconds) eqn:Es; [reflexivity|].
  rewrite IH.
  destruct (main_loop (Ok seconds) timer_refuses rest b1) as [[oks|e] b2];
    reflexivity.
Qed.

(** X28.  In the loop of [main] only the pause can raise.  With a
    [check_interval] that [getint] reads as an integer [time.sleep]
    accepts, the loop never raises: it returns one result for each cycle
    and only appends to the trade history: the records that were there
    stay, at most one is added for each cycle, each stamped with the time
    of a cycle, and the mode and the running flag stay.  Otherwise (a
    text that is no integer, a negative interval) the first pause raises
    and the loop ends after one cycle. *)
Theorem trade_history_only_grows (check_interval : result Z)
    (timer_refuses : Z -> option exn) (cycles : list Cycle)
    (b : TradingBot D S) :
  (forall seconds,
     check_interval = Ok seconds ->
     sleep_error timer_refuses seconds = None ->
     exists oks b' added,
       main_loop check_interval timer_refuses cycles b = (Ok oks, b') /\
       length oks = length cycles /\
       trade_history b' = trade_history b ++ added /\
       (length added <= length cycles)%nat /\
       Forall (fun r => exists w, In w cycles /\ record_timestamp r = now w)
              added /\
       trade_mode b' = trade_mode b /\
       is_running b' = is_running b)
  /\
  (forall e w rest,
     check_interval = Raise e \/
     (exists seconds, check_interval = Ok seconds /\
                      sleep_error timer_refuses seconds = Some e) ->
     cycles = w :: rest ->
     main_loop check_interval timer_refuses cycles b
     = (Raise e, snd (check_and_execute w b))).
Proof.
  split.
  - intros seconds -> Hs.
    revert b. induction cycles as [|w rest IH]; intros b; simpl.
    + exists [], b, []. rewrite app_nil_r. repeat split; auto.
    + unfold mbind, M_bind.
      destruct (check_and_execute_history w b)
        as (ok & b1 & -> & Hm & Hr & Hh).
      rewrite pause_eq, Hs.
      destruct (IH b1)
        as (oks & b' & added & -> & Hlen & Hadd & Hle & Hts & Hm' & Hr').
      assert (Forall (fun r => exists w0, (w = w0 \/ In w0 rest)
                                           /\ record_timestamp r = now w0) added)
        as Hts'.
      { eapply List.Forall_impl; [|exact Hts]. intros r (w0 & Hin & E).
        exists w0. auto. }
      destruct Hh as [Hh|(r & Hh & Hr0)].
      * exists (ok :: oks), b', added. rewrite Hadd, Hh. simpl.
        split; [reflexivity|]. split; [lia|]. split; [reflexivity|].
        split; [lia|]. split; [exact Hts'|]. split; congruence.
      * exists (ok :: oks), b', (r :: added). rewrite Hadd, Hh, <- app_assoc.
        simpl. split; [reflexivity|]. split; [lia|]. split; [reflexivity|].
        split; [lia|]. split; [|split; congruence].
        constructor; [exists w; auto|exact Hts'].
  - intros e w rest Hpause ->. simpl. unfold mbind, M_bind.
    destruct (check_and_execute_history w b) as (ok & b1 & -> & _).
    rewrite pause_eq. simpl.
    destruct Hpause as [->|(seconds & -> & ->)]; reflexivity.
Qed.

End BotMore.

Section BotWitnesses.

Import Bot Examples.

(** X28 at the bot of the tests over two cycles, with the default pause
    of 300 seconds and with a pause of -1. *)
Lemma trade_history_only_grows_witness :
  (exists oks b',
     main_loop (Ok 300) patient [quiet_cycle; quiet_cycle] price_drop_bot
     = (Ok oks, b') /\
     length oks = 2%nat /\
     (length (trade_history b') <= 2)%nat) /\
  main_loop (Ok (-1)) patient [quiet_cycle; quiet_cycle] price_drop_bot
  = (Raise ValueError, snd (check_and_execute quiet_cycle price_drop_bot)).
Proof.
  split.
  - destruct (proj1 (trade_history_only_grows (Ok 300) patient
                       [quiet_cycle; quiet_cycle] price_drop_bot)
                    300 eq_refl eq_refl)
      as (oks & b' & added & Hrun & Hlen & Hadd & Hle & _).
    exists oks, b'. split; [exact Hrun|]. split; [exact Hlen|].
    rewrite Hadd. exact Hle.
  - apply (proj2 (trade_history_only_grows (Ok (-1)) patient
                    [quiet_cycle; quiet_cycle] price_drop_bot)
                 ValueError quiet_cycle [quiet_cycle]).
    + right. exists (-1). split; reflexivity.
    + reflexivity.
Defined.

End BotWitnesses.
